(** * Breakfast menu: selection state, catalog mutation and category views

    A shallow embedding of the state logic of the menu page
    ([src/pages/Index.tsx]) and of the components it mounts
    ([AddItemDialog.tsx], [MenuCategoryView.tsx], [MenuCarousel],
    [OrderSummary.tsx]).

    Conventions.
    - A JavaScript [number] that holds a price is an IEEE-754 binary64
      value: Rocq's primitive [float], whose [+] rounds to nearest even
      exactly as JavaScript's does.
    - A JavaScript [number] that holds an [id] is an integral binary64
      value, written as the integer it denotes ([Z]): ids are documented as
      identifiers and the startup data gives integers.  On such numbers
      [===] and [Math.max] are the integer ones, and [+] gives the binary64
      nearest to the exact sum ([JS.number_add]), which is the exact sum up
      to 2^53 and rounds above.
    - A [string] is a Stdlib [string]; non-ASCII text is its UTF-8 bytes.
    - React state is passed explicitly: an event handler is a function from
      the state before the event to the state after it. *)

From Stdlib Require Import ZArith List String Ascii Bool Lia.
From Stdlib Require Import Floats QArith Permutation.
Import ListNotations.

#[local] Open Scope string_scope.
#[local] Open Scope list_scope.
#[local] Open Scope Z_scope.

(** ** JavaScript primitives used by the components *)

Module JS.

(** [!s] for a string [s]: only the empty string is falsy. *)
Definition falsy (s : string) : bool :=
  match s with
  | EmptyString => true
  | String _ _ => false
  end.

(** [Math.max(...xs, 0)] on integers. *)
Definition Math_max0 (xs : list Z) : Z := fold_right Z.max 0 xs.

(** The integer that a finite integral binary64 denotes (0 for [NaN] and
    the infinities, which denote none). *)
Definition integer_value (x : spec_float) : Z :=
  match x with
  | S754_finite s m e =>
      let n := if s then Zneg m else Zpos m in
      if 0 <=? e then n * 2 ^ e else n / 2 ^ (- e)
  | _ => 0
  end.

(** The binary64 that holds an integer (the nearest one, when the integer
    is not a binary64 itself). *)
Definition number_of_integer (z : Z) : float :=
  SF2Prim (binary_normalize prec emax z 0 false).

(** [x + y] on integral numbers: the binary64 nearest to the exact sum,
    ties to even. *)
Definition number_add (x y : Z) : Z :=
  integer_value (binary_normalize prec emax (x + y) 0 false).

(** [xs.includes(x)] on strings. *)
Definition includes (xs : list string) (x : string) : bool :=
  existsb (String.eqb x) xs.

(** [Set.prototype.add] on the insertion-ordered contents of a [Set]. *)
Definition Set_add (seen : list string) (x : string) : list string :=
  if includes seen x then seen else seen ++ [x].

(** [Array.from(new Set(xs))]: the constructor adds the elements in order,
    and the iteration order of a [Set] is its insertion order. *)
Definition Array_from_Set (xs : list string) : list string :=
  fold_left Set_add xs [].

(** *** [parseFloat]

    ECMAScript's [parseFloat]: leading white space is skipped, the longest
    prefix that is a [StrDecimalLiteral] is taken, and its mathematical
    value is rounded to the nearest binary64; no such prefix gives [NaN]. *)

Definition is_digit (c : ascii) : bool :=
  let n := Z.of_N (N_of_ascii c) in (48 <=? n) && (n <=? 57).

Definition digit_value (c : ascii) : Z := Z.of_N (N_of_ascii c) - 48.

(** The longest prefix of decimal digits, and what follows it. *)
Fixpoint take_digits (s : string) : string * string :=
  match s with
  | String c r =>
      if is_digit c
      then let (ds, rest) := take_digits r in (String c ds, rest)
      else (EmptyString, s)
  | EmptyString => (EmptyString, EmptyString)
  end.

Fixpoint digits_value_from (acc : Z) (s : string) : Z :=
  match s with
  | String c r => digits_value_from (10 * acc + digit_value c) r
  | EmptyString => acc
  end.

Definition digits_value (s : string) : Z := digits_value_from 0 s.

Definition byte_is (n : N) (c : ascii) : bool := N.eqb (N_of_ascii c) n.

(** White space and line terminators, each as the bytes of its UTF-8
    encoding: TAB, LF, VT, FF, CR, SP; U+00A0; U+1680; U+2000..U+200A,
    U+2028, U+2029, U+202F; U+205F; U+3000; U+FEFF. *)
Fixpoint trim_start (s : string) : string :=
  match s with
  | String c r =>
      let n := N_of_ascii c in
      if ((9 <=? n) && (n <=? 13) || (n =? 32))%N then trim_start r
      else
        match r with
        | String c1 r1 =>
            if byte_is 194 c && byte_is 160 c1 then trim_start r1
            else
              match r1 with
              | String c2 r2 =>
                  let n2 := N_of_ascii c2 in
                  if byte_is 225 c && byte_is 154 c1 && byte_is 128 c2
                     || byte_is 226 c && byte_is 128 c1
                        && ((128 <=? n2) && (n2 <=? 138) || (n2 =? 168)
                            || (n2 =? 169) || (n2 =? 175))%N
                     || byte_is 226 c && byte_is 129 c1 && byte_is 159 c2
                     || byte_is 227 c && byte_is 128 c1 && byte_is 128 c2
                     || byte_is 239 c && byte_is 187 c1 && byte_is 191 c2
                  then trim_start r2
                  else s
              | EmptyString => s
              end
        | EmptyString => s
        end
  | EmptyString => EmptyString
  end.

(** An optional sign: whether it is [-], and what follows it. *)
Definition take_sign (s : string) : bool * string :=
  match s with
  | String "+" r => (false, r)
  | String "-" r => (true, r)
  | _ => (false, s)
  end.

(** The value of the longest [ExponentPart] that [s] starts with, 0 when
    it starts with none ([e] or [E], an optional sign, and at least one
    digit). *)
Definition take_exponent (s : string) : Z :=
  match s with
  | String c r =>
      if (Ascii.eqb c "e" || Ascii.eqb c "E")%bool
      then
        let (neg, r') := take_sign r in
        let (ds, _) := take_digits r' in
        if falsy ds then 0
        else if neg then - digits_value ds else digits_value ds
      else 0
  | EmptyString => 0
  end.

(** The binary64 nearest to [m * 10^e] for [m > 0], ties to even.  For a
    negative exponent the quotient is taken with more than 60 significant
    bits and one sticky bit for the remainder, which rounds as the exact
    quotient does. *)
Definition round_decimal (m e : Z) : spec_float :=
  if 0 <=? e
  then binary_normalize prec emax (m * 10 ^ e) 0 false
  else
    let d := 10 ^ (- e) in
    let s := Z.max 0 (Z.log2 d - Z.log2 m + 64) in
    let n := Z.shiftl m s in
    let sticky := if n mod d =? 0 then 0 else 1 in
    binary_normalize prec emax (2 * (n / d) + sticky) (- (s + 1)) false.

Definition decimal_to_float (neg : bool) (m e : Z) : float :=
  let f := if m =? 0 then zero else SF2Prim (round_decimal m e) in
  if neg then PrimFloat.opp f else f.

Definition parseFloat (input : string) : float :=
  let (neg, u) := take_sign (trim_start input) in
  if String.prefix "Infinity" u
  then if neg then neg_infinity else infinity
  else
    let (int_part, r1) := take_digits u in
    let (frac_part, r2) :=
      match r1 with
      | String "." r => take_digits r
      | _ => (EmptyString, r1)
      end in
    if falsy int_part && falsy frac_part then nan
    else
      decimal_to_float neg
        (digits_value (String.append int_part frac_part))
        (take_exponent r2 - Z.of_nat (String.length frac_part)).

Definition isNaN (x : float) : bool := PrimFloat.is_nan x.

(** The rational that a finite binary64 denotes (0 for [NaN] and the
    infinities, which denote none). *)
Definition float_value (x : float) : Q :=
  match Prim2SF x with
  | S754_finite s m e =>
      let n := if s then Zneg m else Zpos m in
      if (0 <=? e)%Z then inject_Z (n * 2 ^ e)
      else Qmake n (Z.to_pos (2 ^ (- e)))
  | _ => 0%Q
  end.

Definition is_finite (x : float) : bool :=
  match Prim2SF x with
  | S754_zero _ | S754_finite _ _ _ => true
  | _ => false
  end.

End JS.

(** ** The data model *)

(** [interface MenuItem], declared alike in every component. *)
Module MenuItem.
Record t : Type := make {
  id : Z;
  name : string;
  price : float;
  category : string;
  icon : string;
  icon_name : string;
  image : option string
}.
End MenuItem.

(** [Omit<MenuItem, "id">]: what the dialog hands to the page. *)
Module NewItem.
Record t : Type := make {
  name : string;
  price : float;
  category : string;
  icon : string;
  icon_name : string;
  image : option string
}.

(** [{ id: newId, ...newItem }] *)
Definition with_id (newId : Z) (newItem : t) : MenuItem.t :=
  MenuItem.make newId (name newItem) (price newItem) (category newItem)
    (icon newItem) (icon_name newItem) (image newItem).
End NewItem.

(** A notification handed to the toast sink. *)
Inductive ToastKind : Type := Plain | Success.

Record Toast : Type := { toast_kind : ToastKind; toast_message : string }.

(** What a category component draws.  A card stands for one clickable item
    tile; [card_selected] drives both its highlight and its check mark. *)
Record Card : Type := { card_item : MenuItem.t; card_selected : bool }.

Inductive Node : Type :=
| Heading (text : string)
| EmptyMessage (text : string)
| PreviousButton (disabled : bool)
| NextButton (disabled : bool)
| Track (translateX : Z) (cards : list Card)
| Grid (cards : list Card).

Definition is_navigation (n : Node) : bool :=
  match n with
  | PreviousButton _ | NextButton _ => true
  | _ => false
  end.

(** ** [MenuCategoryView]: the grid of all items of a category *)

Module MenuCategoryView.

Definition categoryItems (items : list MenuItem.t) (category : string)
  : list MenuItem.t :=
  filter (fun item => String.eqb (MenuItem.category item) category) items.

Definition isItemSelected (selectedItems : list MenuItem.t)
  (item : MenuItem.t) : bool :=
  existsb (fun selectedItem => MenuItem.id selectedItem =? MenuItem.id item)
    selectedItems.

(** The component's result; [None] is the [null] it returns for a
    category without items. *)
Definition render (items : list MenuItem.t) (category : string)
  (selectedItems : list MenuItem.t) : option (list Node) :=
  let categoryItems := categoryItems items category in
  if (List.length categoryItems =? 0)%nat then None
  else
    Some [ Heading category;
           Grid (map (fun item =>
                        {| card_item := item;
                           card_selected := isItemSelected selectedItems item |})
                     categoryItems) ].

(** The cards in the grid of a rendered category. *)
Definition cards (view : option (list Node)) : list Card :=
  match view with
  | Some nodes =>
      flat_map (fun node => match node with Grid cs => cs | _ => [] end) nodes
  | None => []
  end.

End MenuCategoryView.

(** ** [MenuCarousel]: the paged view of a category *)

Module MenuCarousel.

Definition categoryItems (items : list MenuItem.t) (category : string)
  : list MenuItem.t :=
  filter (fun item => String.eqb (MenuItem.category item) category) items.

Definition visibleItems (items : list MenuItem.t) (category : string) : Z :=
  Z.min 5 (Z.of_nat (List.length (categoryItems items category))).

Definition maxIndex (items : list MenuItem.t) (category : string) : Z :=
  Z.max 0 (Z.of_nat (List.length (categoryItems items category))
           - visibleItems items category).

(** The two updaters of [activeIndex]. *)
Definition goToPrevious (prevIndex : Z) : Z := Z.max 0 (prevIndex - 1).

Definition goToNext (items : list MenuItem.t) (category : string)
  (prevIndex : Z) : Z :=
  Z.min (maxIndex items category) (prevIndex + 1).

Definition isItemSelected (selectedItems : list MenuItem.t)
  (item : MenuItem.t) : bool :=
  existsb (fun selectedItem => MenuItem.id selectedItem =? MenuItem.id item)
    selectedItems.

Definition render (items : list MenuItem.t) (category : string)
  (selectedItems : list MenuItem.t) (activeIndex : Z) : list Node :=
  let categoryItems := categoryItems items category in
  if (List.length categoryItems =? 0)%nat
  then [ Heading category; EmptyMessage "No items in this category" ]
  else
    [ Heading category;
      PreviousButton (activeIndex =? 0);
      NextButton (maxIndex items category <=? activeIndex);
      Track (- (activeIndex * 88))
        (map (fun item =>
                {| card_item := item;
                   card_selected := isItemSelected selectedItems item |})
             categoryItems) ].

(** The two navigation buttons.  A button is drawn disabled under the
    condition [render] gives it, and a disabled button does not call its
    handler. *)
Inductive Nav : Type := Previous | Next.

Definition disabled (items : list MenuItem.t) (category : string)
  (activeIndex : Z) (nav : Nav) : bool :=
  match nav with
  | Previous => activeIndex =? 0
  | Next => maxIndex items category <=? activeIndex
  end.

Definition handler (items : list MenuItem.t) (category : string)
  (nav : Nav) (prevIndex : Z) : Z :=
  match nav with
  | Previous => goToPrevious prevIndex
  | Next => goToNext items category prevIndex
  end.

Definition click (items : list MenuItem.t) (category : string)
  (activeIndex : Z) (nav : Nav) : Z :=
  if disabled items category activeIndex nav then activeIndex
  else handler items category nav activeIndex.

(** The cards on the track of a rendered carousel. *)
Definition cards (nodes : list Node) : list Card :=
  flat_map (fun node => match node with Track _ cs => cs | _ => [] end) nodes.

End MenuCarousel.

(** ** [OrderSummary]: total and count of the order *)

Module OrderSummary.

(** [selectedItems.reduce((sum, item) => sum + item.price, 0)] *)
Definition totalPrice (selectedItems : list MenuItem.t) : float :=
  fold_left (fun sum item => (sum + MenuItem.price item)%float)
    selectedItems zero.

Definition itemCount (selectedItems : list MenuItem.t) : nat :=
  List.length selectedItems.

End OrderSummary.

(** ** [AddItemDialog]: the form that authors a new entry *)

Module AddItemDialog.

(** [iconOptions]: the emoji and the name of each icon on offer. *)
Definition iconOptions : list (string * string) :=
  [ ("☕", "coffee"); ("🥚", "egg"); ("🍳", "egg-fried");
    ("🍽️", "utensils"); ("🥤", "cup-soda"); ("🥞", "pancake");
    ("🍪", "cookie") ].

(** The form state of the dialog. *)
Record Form : Type := {
  name : string;
  price : string;
  category : string;
  iconName : string;
  selectedIcon : string
}.

Definition emptyForm : Form :=
  {| name := ""; price := ""; category := ""; iconName := "";
     selectedIcon := "🍽️" |}.

(** How [handleSubmit] ended: at one of its two bare [return]s, or after
    calling [onAddItem]. *)
Inductive Outcome : Type := EarlyReturn | Completed.

Definition handleIconSelect (name' : string) (f : Form) : Form :=
  let f' := {| name := name f; price := price f; category := category f;
               iconName := name'; selectedIcon := selectedIcon f |} in
  match find (fun option => String.eqb (snd option) name') iconOptions with
  | Some selected =>
      {| name := name f'; price := price f'; category := category f';
         iconName := iconName f'; selectedIcon := fst selected |}
  | None => f'
  end.

Section Props.

(** The state of the parent component, and the two callbacks it passes
    as props. *)
Variable Parent : Type.
Variable onAddItem : NewItem.t -> Parent -> Parent.
Variable onOpenChange : bool -> Parent -> Parent.

Definition handleSubmit (f : Form) (parent : Parent)
  : Outcome * Form * Parent :=
  if JS.falsy (name f) || JS.falsy (price f) || JS.falsy (category f)
     || JS.falsy (iconName f)
  then (EarlyReturn, f, parent)
  else
    let priceValue := JS.parseFloat (price f) in
    if JS.isNaN priceValue then (EarlyReturn, f, parent)
    else
      let parent :=
        onAddItem
          {| NewItem.name := name f;
             NewItem.price := priceValue;
             NewItem.category := category f;
             NewItem.icon := selectedIcon f;
             NewItem.icon_name := iconName f;
             NewItem.image := None |}
          parent in
      (Completed, emptyForm, onOpenChange false parent).

Definition handleCancel (parent : Parent) : Parent :=
  onOpenChange false parent.

End Props.

Arguments handleSubmit {Parent}.
Arguments handleCancel {Parent}.

(** The [disabled] attribute of the Save button. *)
Definition saveDisabled (f : Form) : bool :=
  JS.falsy (name f) || JS.falsy (price f) || JS.falsy (category f)
  || JS.falsy (iconName f).

End AddItemDialog.

(** ** [Index]: the page and its state *)

Module Index.

Record State : Type := {
  menu : list MenuItem.t;
  selectedItems : list MenuItem.t;
  categories : list string;
  addItemDialogOpen : bool;
  toasts : list Toast
}.

(** The state before the mount effect has run. *)
Definition initial : State :=
  {| menu := []; selectedItems := []; categories := [];
     addItemDialogOpen := false; toasts := [] |}.

Definition setMenu (f : list MenuItem.t -> list MenuItem.t) (st : State) :=
  {| menu := f (menu st); selectedItems := selectedItems st;
     categories := categories st;
     addItemDialogOpen := addItemDialogOpen st; toasts := toasts st |}.

Definition setSelectedItems (f : list MenuItem.t -> list MenuItem.t)
  (st : State) :=
  {| menu := menu st; selectedItems := f (selectedItems st);
     categories := categories st;
     addItemDialogOpen := addItemDialogOpen st; toasts := toasts st |}.

Definition setCategories (f : list string -> list string) (st : State) :=
  {| menu := menu st; selectedItems := selectedItems st;
     categories := f (categories st);
     addItemDialogOpen := addItemDialogOpen st; toasts := toasts st |}.

Definition setAddItemDialogOpen (open : bool) (st : State) :=
  {| menu := menu st; selectedItems := selectedItems st;
     categories := categories st;
     addItemDialogOpen := open; toasts := toasts st |}.

Definition toast (kind : ToastKind) (message : string) (st : State) :=
  {| menu := menu st; selectedItems := selectedItems st;
     categories := categories st;
     addItemDialogOpen := addItemDialogOpen st;
     toasts := toasts st ++ [ {| toast_kind := kind;
                                 toast_message := message |} ] |}.

(** The mount effect: load the menu data and derive its categories. *)
Definition mount (menuData : list MenuItem.t) (st : State) : State :=
  let st := setMenu (fun _ => menuData) st in
  let uniqueCategories :=
    JS.Array_from_Set (map MenuItem.category menuData) in
  setCategories (fun _ => uniqueCategories) st.

Definition handleOrderItem (item : MenuItem.t) (st : State) : State :=
  let currentItems := selectedItems st in
  let isAlreadySelected :=
    existsb (fun selectedItem => MenuItem.id selectedItem =? MenuItem.id item)
      currentItems in
  if isAlreadySelected
  then
    let st := toast Plain ("Removed " ++ MenuItem.name item
                           ++ " from your order") st in
    setSelectedItems
      (fun _ => filter (fun selectedItem =>
                          negb (MenuItem.id selectedItem =? MenuItem.id item))
                       currentItems) st
  else
    let st := toast Plain ("Added " ++ MenuItem.name item
                           ++ " to your order") st in
    setSelectedItems (fun _ => currentItems ++ [item]) st.

Definition handleAddMenuItem (newItem : NewItem.t) (st : State) : State :=
  let newId := JS.number_add (JS.Math_max0 (map MenuItem.id (menu st))) 1 in
  let itemWithId := NewItem.with_id newId newItem in
  let categories := categories st in
  let st := setMenu (fun currentMenu => currentMenu ++ [itemWithId]) st in
  let st :=
    if negb (JS.includes categories (NewItem.category newItem))
    then setCategories
           (fun currentCategories =>
              currentCategories ++ [NewItem.category newItem]) st
    else st in
  toast Success ("Added " ++ NewItem.name newItem ++ " to the menu")%string st.

(** The dialog's [handleSubmit] with the props the page gives it. *)
Definition submit (f : AddItemDialog.Form) (st : State)
  : AddItemDialog.Outcome * AddItemDialog.Form * State :=
  AddItemDialog.handleSubmit handleAddMenuItem setAddItemDialogOpen f st.

(** The component the page mounts for each category. *)
Inductive CategoryComponent : Type := MenuCategoryView | MenuCarousel.

Definition categoryComponent (isMobile : bool) : CategoryComponent :=
  if isMobile then MenuCategoryView else MenuCarousel.

(** The category area of the page; [activeIndex] gives the state of the
    carousel of each category. *)
Definition renderCategories (isMobile : bool) (activeIndex : string -> Z)
  (st : State) : list (option (list Node)) :=
  map (fun category =>
         match categoryComponent isMobile with
         | MenuCategoryView =>
             MenuCategoryView.render (menu st) category (selectedItems st)
         | MenuCarousel =>
             Some (MenuCarousel.render (menu st) category (selectedItems st)
                     (activeIndex category))
         end)
      (categories st).

(** What a user can do to the page state. *)
Inductive Event : Type :=
| OrderItem (item : MenuItem.t)
| Submit (f : AddItemDialog.Form)
| OpenAddItem
| Cancel.

Definition step (st : State) (e : Event) : State :=
  match e with
  | OrderItem item => handleOrderItem item st
  | Submit f => snd (submit f st)
  | OpenAddItem => setAddItemDialogOpen true st
  | Cancel => AddItemDialog.handleCancel setAddItemDialogOpen st
  end.

(** The page state after the mount effect and a sequence of events. *)
Definition run (menuData : list MenuItem.t) (events : list Event) : State :=
  fold_left step events (mount menuData initial).

(** The events come from the page as drawn: every ordered item is the
    item of a card, hence an entry of the menu at the time of the click. *)
Fixpoint from_view (st : State) (events : list Event) : Prop :=
  match events with
  | [] => True
  | e :: rest =>
      match e with
      | OrderItem item => In item (menu st)
      | _ => True
      end
      /\ from_view (step st e) rest
  end.

(** The [OrderItem] events of a sequence. *)
Definition orders (events : list Event) : list Event :=
  filter (fun e => match e with OrderItem _ => true | _ => false end) events.

End Index.

(** ** Specification-side notions *)

Module Spec.

(** [isSelected(entryId)]: some selected entry carries the id. *)
Definition isSelected (entryId : Z) (selection : list MenuItem.t) : bool :=
  existsb (fun entry => MenuItem.id entry =? entryId) selection.

(** The distinct strings of a sequence, each at the place of its first
    occurrence. *)
Fixpoint first_seen (xs : list string) : list string :=
  match xs with
  | [] => []
  | x :: rest =>
      x :: filter (fun y => negb (String.eqb y x)) (first_seen rest)
  end.

(** The sum of the prices as rationals, without any rounding. *)
Definition exact_sum (items : list MenuItem.t) : Q :=
  fold_right (fun item acc => (JS.float_value (MenuItem.price item) + acc)%Q)
    0%Q items.

(** Whether adding the prices to [sum] one after the other, as
    [OrderSummary.totalPrice] does, never rounds and never leaves the
    finite numbers. *)
Fixpoint adds_exactly (sum : float) (items : list MenuItem.t) : bool :=
  match items with
  | [] => true
  | item :: rest =>
      let sum' := (sum + MenuItem.price item)%float in
      JS.is_finite sum'
      && Qeq_bool (JS.float_value sum')
           (JS.float_value sum + JS.float_value (MenuItem.price item))
      && adds_exactly sum' rest
  end.

End Spec.

(** ** Sample data *)

Module Sample.

Definition coffee : MenuItem.t :=
  MenuItem.make 1 "Coffee" 3 "Drinks" "☕" "coffee" None.

Definition bagel : MenuItem.t :=
  MenuItem.make 2 "Bagel" 2.25 "Pastries" "🍪" "cookie" None.

Definition omelette : MenuItem.t :=
  MenuItem.make 5 "Omelette" 7.5 "Mains" "🍳" "egg-fried" None.

(** A second entry that shares the id of [coffee]. *)
Definition espresso : MenuItem.t :=
  MenuItem.make 1 "Espresso" 2.5 "Drinks" "☕" "coffee" None.

Definition catalog : list MenuItem.t := [coffee; bagel; omelette].

Definition tea : AddItemDialog.Form :=
  {| AddItemDialog.name := "Tea"; AddItemDialog.price := "2.5";
     AddItemDialog.category := "Drinks"; AddItemDialog.iconName := "cup-soda";
     AddItemDialog.selectedIcon := "🥤" |}.

(** A draft without a name, and one whose price is not a number. *)
Definition unnamed : AddItemDialog.Form :=
  {| AddItemDialog.name := ""; AddItemDialog.price := "2.5";
     AddItemDialog.category := "Drinks"; AddItemDialog.iconName := "cup-soda";
     AddItemDialog.selectedIcon := "🥤" |}.

Definition unpriced : AddItemDialog.Form :=
  {| AddItemDialog.name := "Tea"; AddItemDialog.price := "abc";
     AddItemDialog.category := "Drinks"; AddItemDialog.iconName := "cup-soda";
     AddItemDialog.selectedIcon := "🥤" |}.

(** An entry whose id is 2^53, the first integer whose successor is not a
    binary64. *)
Definition limit : MenuItem.t :=
  MenuItem.make 9007199254740992 "Special" 9.5 "Mains" "🍽️" "utensils" None.

(** Seven entries of one category. *)
Definition side (i : Z) : MenuItem.t :=
  MenuItem.make i "Side" 1.5 "Sides" "🥚" "egg" None.

Definition sides : list MenuItem.t := map side [1; 2; 3; 4; 5; 6; 7].

End Sample.

(** ** Cards and clicks *)

(** The card of an item after a click on [item]. *)
Definition after_click (item : MenuItem.t) (card : Card) : Card :=
  {| card_item := card_item card;
     card_selected :=
       if MenuItem.id (card_item card) =? MenuItem.id item
       then negb (card_selected card)
       else card_selected card |}.

(** ** Invariants *)

(** The categories are the first-seen categories of the menu. *)
Definition categories_current (st : Index.State) : Prop :=
  Index.categories st =
  Spec.first_seen (map MenuItem.category (Index.menu st)).

(** * Properties *)

(** ** Selection: toggling *)

Lemma isSelected_app i (xs ys : list MenuItem.t) :
  Spec.isSelected i (xs ++ ys) = Spec.isSelected i xs || Spec.isSelected i ys.
Proof. unfold Spec.isSelected. apply existsb_app. Qed.

Lemma isSelected_filter_out i (xs : list MenuItem.t) :
  Spec.isSelected i
    (filter (fun entry => negb (MenuItem.id entry =? i)) xs) = false.
Proof.
  unfold Spec.isSelected.
  induction xs as [|x xs IH]; simpl; [reflexivity|].
  destruct (MenuItem.id x =? i) eqn:E; simpl; [exact IH|].
  rewrite E. exact IH.
Qed.

Lemma handleOrderItem_selectedItems item st :
  Index.selectedItems (Index.handleOrderItem item st) =
  if Spec.isSelected (MenuItem.id item) (Index.selectedItems st)
  then filter (fun entry => negb (MenuItem.id entry =? MenuItem.id item))
         (Index.selectedItems st)
  else Index.selectedItems st ++ [item].
Proof.
  unfold Index.handleOrderItem, Spec.isSelected.
  destruct (existsb _ (Index.selectedItems st)); reflexivity.
Qed.

Lemma handleOrderItem_flips item st :
  Spec.isSelected (MenuItem.id item)
    (Index.selectedItems (Index.handleOrderItem item st)) =
  negb (Spec.isSelected (MenuItem.id item) (Index.selectedItems st)).
Proof.
  rewrite handleOrderItem_selectedItems.
  destruct (Spec.isSelected (MenuItem.id item) (Index.selectedItems st)) eqn:E.
  - apply isSelected_filter_out.
  - rewrite isSelected_app, E. simpl. rewrite Z.eqb_refl. reflexivity.
Qed.

Lemma toggles_parity i (items : list MenuItem.t) :
  Forall (fun item => MenuItem.id item = i) items ->
  forall st,
    Spec.isSelected i
      (Index.selectedItems
         (fold_left (fun s item => Index.handleOrderItem item s) items st)) =
    xorb (Nat.odd (List.length items))
      (Spec.isSelected i (Index.selectedItems st)).
Proof.
  induction 1 as [|item items Hid _ IH]; intros st.
  - simpl. destruct (Spec.isSelected _ _); reflexivity.
  - cbn [fold_left List.length]. rewrite IH. subst i.
    rewrite handleOrderItem_flips, Nat.odd_succ, <- Nat.negb_odd.
    destruct (Nat.odd _), (Spec.isSelected _ _); reflexivity.
Qed.

(** C1.  Toggling an entry removes every selected entry with its id when
    there is one and appends the entry otherwise, so it flips the
    membership of the id; after a sequence of toggles of entries that all
    carry one id, the membership of that id is the one before the sequence
    when the sequence has even length and the opposite one when it has odd
    length. *)
Theorem toggle_membership_parity :
  forall (i : Z) (items : list MenuItem.t) (st : Index.State),
    Forall (fun item => MenuItem.id item = i) items ->
    (forall item st0,
        Index.selectedItems (Index.handleOrderItem item st0) =
        if Spec.isSelected (MenuItem.id item) (Index.selectedItems st0)
        then filter (fun entry => negb (MenuItem.id entry =? MenuItem.id item))
               (Index.selectedItems st0)
        else Index.selectedItems st0 ++ [item])
    /\ Spec.isSelected i
         (Index.selectedItems
            (fold_left (fun s item => Index.handleOrderItem item s) items st)) =
       (if Nat.even (List.length items)
        then Spec.isSelected i (Index.selectedItems st)
        else negb (Spec.isSelected i (Index.selectedItems st))).
Proof.
  intros i items st Hids. split.
  - intros item st0. apply handleOrderItem_selectedItems.
  - rewrite (toggles_parity i items Hids), <- Nat.negb_odd.
    destruct (Nat.odd _), (Spec.isSelected _ _); reflexivity.
Qed.

Lemma toggle_membership_parity_witness :
  Forall (fun item => MenuItem.id item = 1)
    [Sample.coffee; Sample.espresso; Sample.coffee]
  /\ Spec.isSelected 1
       (Index.selectedItems
          (fold_left (fun s item => Index.handleOrderItem item s)
             [Sample.coffee; Sample.espresso; Sample.coffee]
             (Index.mount Sample.catalog Index.initial))) = true.
Proof.
  assert (H : Forall (fun item => MenuItem.id item = 1)
                [Sample.coffee; Sample.espresso; Sample.coffee])
    by (repeat constructor).
  split; [exact H|].
  exact (proj2 (toggle_membership_parity 1 _
                  (Index.mount Sample.catalog Index.initial) H)).
Defined.

(** ** Catalog: creating an entry *)

Lemma Math_max0_ge (xs : list Z) : Forall (fun x => x <= JS.Math_max0 xs) xs.
Proof.
  induction xs as [|x xs IH]; simpl; constructor.
  - lia.
  - eapply Forall_impl; [|exact IH]. simpl. intros y Hy. lia.
Qed.

Lemma Math_max0_nonneg (xs : list Z) : 0 <= JS.Math_max0 xs.
Proof. induction xs as [|x xs IH]; simpl; lia. Qed.


Lemma Math_max0_lt (xs : list Z) (bound : Z) :
  0 < bound -> Forall (fun x => x < bound) xs -> JS.Math_max0 xs < bound.
Proof.
  intros Hbound Hxs. induction Hxs as [|x xs Hx _ IH]; simpl; lia.
Qed.

(** *** Sums of integers in binary64 *)

Lemma digits2_pos_size (p : positive) : digits2_pos p = Pos.size p.
Proof. induction p; simpl; congruence. Qed.

Lemma digits2_pos_bound (p : positive) :
  Zpos p < 2 ^ 53 -> Zpos (digits2_pos p) <= 53.
Proof.
  intros Hp. rewrite digits2_pos_size.
  assert (Hsize : 2 ^ Zpos (Pos.size p) <= 2 * Zpos p).
  { change 2 with (Zpos 2) at 1. rewrite <- Pos2Z.inj_pow.
    change (2 * Zpos p) with (Zpos p~0).
    apply Pos2Z.pos_le_pos, Pos.size_le. }
  destruct (Z_le_gt_dec (Zpos (Pos.size p)) 53) as [Hle|Hgt]; [exact Hle|].
  assert (H54 : 2 ^ 54 <= 2 ^ Zpos (Pos.size p))
    by (apply Z.pow_le_mono_r; lia).
  change (2 ^ 54) with (2 * 2 ^ 53) in H54. lia.
Qed.

Lemma digits2_pos_iter (p k : positive) :
  digits2_pos (Pos.iter xO p k) = (digits2_pos p + k)%positive.
Proof.
  induction k as [|k IH] using Pos.peano_ind.
  - simpl. lia.
  - rewrite Pos.iter_succ. simpl. rewrite IH. lia.
Qed.

Lemma iter_xO_value (p k : positive) :
  Zpos (Pos.iter xO p k) = Zpos p * 2 ^ Zpos k.
Proof.
  induction k as [|k IH] using Pos.peano_ind.
  - simpl. lia.
  - rewrite Pos.iter_succ, Pos2Z.inj_xO, IH, Pos2Z.inj_succ, Z.pow_succ_r;
      lia.
Qed.

(** A mantissa of 53 bits with an exponent in range is already rounded. *)
Lemma binary_round_aux_canonical (s : bool) (m : positive) (e : Z) :
  Zpos (digits2_pos m) = 53 -> -1074 <= e <= 971 ->
  binary_round_aux prec emax s (Zpos m) e loc_Exact = S754_finite s m e.
Proof.
  intros Hdigits He.
  unfold binary_round_aux, shr_fexp, fexp, emin, prec, emax.
  cbn [shr_record_of_loc Zdigits2]. rewrite Hdigits.
  replace (Z.max (53 + e - 53) (3 - 1024 - 53) - e) with 0 by lia.
  cbn [shr shr_m loc_of_shr_record round_nearest_even shr_record_of_loc
       Zdigits2].
  rewrite Hdigits.
  replace (Z.max (53 + e - 53) (3 - 1024 - 53) - e) with 0 by lia.
  cbn [shr shr_m].
  replace (e <=? 1024 - 53) with true; [reflexivity|].
  symmetry. apply Z.leb_le. lia.
Qed.

(** A positive integer below 2^53 is a binary64. *)
Lemma binary_normalize_small (p : positive) :
  Zpos p < 2 ^ 53 ->
  JS.integer_value (binary_normalize prec emax (Zpos p) 0 false) = Zpos p.
Proof.
  intros Hp. pose proof (digits2_pos_bound p Hp) as Hd.
  unfold binary_normalize, binary_round.
  assert (Hfexp : fexp prec emax (Zpos (digits2_pos p) + 0) =
                  Zpos (digits2_pos p) - 53).
  { unfold fexp, emin, prec, emax. lia. }
  rewrite Hfexp. unfold shl_align.
  destruct (Zpos (digits2_pos p) - 53 - 0) as [|q|k] eqn:Ek; try lia.
  - rewrite binary_round_aux_canonical; [|lia|lia].
    simpl. lia.
  - rewrite binary_round_aux_canonical.
    + unfold JS.integer_value.
      replace (Zpos (digits2_pos p) - 53) with (Zneg k) by lia.
      simpl Z.leb. cbv iota. rewrite iter_xO_value.
      change (- Zneg k) with (Zpos k). apply Z.div_mul.
      apply Z.pow_nonzero; lia.
    + rewrite digits2_pos_iter. lia.
    + lia.
Qed.

(** Up to 2^53 the sum of two integral numbers is their exact sum. *)
Lemma number_add_exact (x y : Z) :
  0 <= x + y <= 2 ^ 53 -> JS.number_add x y = x + y.
Proof.
  intros Hsum. unfold JS.number_add.
  destruct (Z.eq_dec (x + y) (2 ^ 53)) as [->|Hne]; [reflexivity|].
  destruct (x + y) as [|p|p] eqn:E; [reflexivity| |lia].
  apply binary_normalize_small. lia.
Qed.

Lemma fresh_id_exact (ids : list Z) :
  JS.Math_max0 ids < 2 ^ 53 ->
  JS.number_add (JS.Math_max0 ids) 1 = JS.Math_max0 ids + 1.
Proof.
  intros Hmax. pose proof (Math_max0_nonneg ids) as Hnonneg.
  apply number_add_exact. lia.
Qed.

Lemma handleAddMenuItem_menu newItem st :
  Index.menu (Index.handleAddMenuItem newItem st) =
  Index.menu st
  ++ [NewItem.with_id
        (JS.number_add (JS.Math_max0 (map MenuItem.id (Index.menu st))) 1)
        newItem].
Proof.
  unfold Index.handleAddMenuItem.
  destruct (negb (JS.includes _ _)); reflexivity.
Qed.

Lemma handleAddMenuItem_categories newItem st :
  Index.categories (Index.handleAddMenuItem newItem st) =
  JS.Set_add (Index.categories st) (NewItem.category newItem).
Proof.
  unfold Index.handleAddMenuItem, JS.Set_add.
  destruct (JS.includes _ _); reflexivity.
Qed.

Lemma handleAddMenuItem_selectedItems newItem st :
  Index.selectedItems (Index.handleAddMenuItem newItem st) =
  Index.selectedItems st.
Proof.
  unfold Index.handleAddMenuItem.
  destruct (negb (JS.includes _ _)); reflexivity.
Qed.

(** What a completed submission does to the page: it is [handleAddMenuItem]
    on the parsed draft, followed by closing the dialog. *)
Lemma submit_completed f st f' st' :
  Index.submit f st = (AddItemDialog.Completed, f', st') ->
  f' = AddItemDialog.emptyForm
  /\ st' =
     Index.setAddItemDialogOpen false
       (Index.handleAddMenuItem
          {| NewItem.name := AddItemDialog.name f;
             NewItem.price := JS.parseFloat (AddItemDialog.price f);
             NewItem.category := AddItemDialog.category f;
             NewItem.icon := AddItemDialog.selectedIcon f;
             NewItem.icon_name := AddItemDialog.iconName f;
             NewItem.image := None |} st).
Proof.
  unfold Index.submit, AddItemDialog.handleSubmit.
  destruct (_ || _); [discriminate|].
  destruct (JS.isNaN _); [discriminate|].
  intros E. injection E as <- <-. split; reflexivity.
Qed.

Lemma submit_early f st f' st' :
  Index.submit f st = (AddItemDialog.EarlyReturn, f', st') ->
  f' = f /\ st' = st.
Proof.
  unfold Index.submit, AddItemDialog.handleSubmit.
  destruct (_ || _); [intros E; injection E as <- <-; split; reflexivity|].
  destruct (JS.isNaN _); [|discriminate].
  intros E; injection E as <- <-; split; reflexivity.
Qed.




(** The sum on integers agrees with the addition of the primitive binary64
    at and around the point where it starts to round. *)
Example number_add_is_float_add :
  map (fun x =>
         JS.integer_value (Prim2SF (JS.number_of_integer x + 1)%float))
    [0; 5; 2 ^ 53 - 2; 2 ^ 53 - 1; 2 ^ 53; 2 ^ 53 + 2; 2 ^ 53 + 4;
     2 ^ 54; 2 ^ 54 + 4; 2 ^ 60] =
  map (fun x => JS.number_add x 1)
    [0; 5; 2 ^ 53 - 2; 2 ^ 53 - 1; 2 ^ 53; 2 ^ 53 + 2; 2 ^ 53 + 4;
     2 ^ 54; 2 ^ 54 + 4; 2 ^ 60]
  /\ map (fun x => JS.number_add x 1)
       [0; 5; 2 ^ 53 - 2; 2 ^ 53 - 1; 2 ^ 53; 2 ^ 53 + 2; 2 ^ 53 + 4] =
     [1; 6; 2 ^ 53 - 1; 2 ^ 53; 2 ^ 53; 2 ^ 53 + 4; 2 ^ 53 + 4].
Proof. split; vm_compute; reflexivity. Qed.

(** ** Catalog: refusing a draft *)

Lemma falsy_iff (s : string) : JS.falsy s = true <-> s = "".
Proof. destruct s; simpl; split; congruence. Qed.

Lemma parseFloat_empty : JS.isNaN (JS.parseFloat "") = true.
Proof. reflexivity. Qed.

(** The test that opens [handleSubmit], as a proposition. *)
Lemma required_fields_missing f :
  JS.falsy (AddItemDialog.name f) || JS.falsy (AddItemDialog.price f)
  || JS.falsy (AddItemDialog.category f)
  || JS.falsy (AddItemDialog.iconName f) = true
  <-> AddItemDialog.name f = "" \/ AddItemDialog.price f = ""
      \/ AddItemDialog.category f = "" \/ AddItemDialog.iconName f = "".
Proof.
  rewrite !orb_true_iff, !falsy_iff. tauto.
Qed.

Lemma submit_outcome f st :
  fst (fst (Index.submit f st)) =
  if JS.falsy (AddItemDialog.name f) || JS.falsy (AddItemDialog.price f)
     || JS.falsy (AddItemDialog.category f)
     || JS.falsy (AddItemDialog.iconName f)
     || JS.isNaN (JS.parseFloat (AddItemDialog.price f))
  then AddItemDialog.EarlyReturn
  else AddItemDialog.Completed.
Proof.
  unfold Index.submit, AddItemDialog.handleSubmit.
  destruct (_ || JS.falsy (AddItemDialog.iconName f)); [reflexivity|].
  destruct (JS.isNaN _); reflexivity.
Qed.

(** C3, as amended.  A submission is refused exactly when the name, the
    category or the icon name is empty or [parseFloat] of the price text is
    [NaN]; a refused submission leaves the form and the whole page state,
    the catalog included, as they were. *)
Theorem createEntry_refusal :
  forall (f : AddItemDialog.Form) (st : Index.State),
    (fst (fst (Index.submit f st)) = AddItemDialog.EarlyReturn
     <-> AddItemDialog.name f = ""
         \/ AddItemDialog.category f = ""
         \/ AddItemDialog.iconName f = ""
         \/ JS.isNaN (JS.parseFloat (AddItemDialog.price f)) = true)
    /\ (fst (fst (Index.submit f st)) = AddItemDialog.EarlyReturn ->
        Index.submit f st = (AddItemDialog.EarlyReturn, f, st)
        /\ Index.menu (snd (Index.submit f st)) = Index.menu st
        /\ Index.categories (snd (Index.submit f st)) = Index.categories st).
Proof.
  intros f st. split.
  - rewrite submit_outcome.
    destruct (_ || JS.isNaN _) eqn:E.
    + split; [intros _|reflexivity].
      apply orb_true_iff in E. destruct E as [E|E]; [|tauto].
      apply required_fields_missing in E.
      destruct E as [E|[E|[E|E]]]; try tauto.
      right; right; right. rewrite E. apply parseFloat_empty.
    + split; [discriminate|]. intros H. exfalso.
      apply orb_false_iff in E. destruct E as [E1 E2].
      assert (Hnone : ~ (AddItemDialog.name f = ""
                         \/ AddItemDialog.price f = ""
                         \/ AddItemDialog.category f = ""
                         \/ AddItemDialog.iconName f = "")).
      { intros Hm. apply required_fields_missing in Hm. congruence. }
      destruct H as [H|[H|[H|H]]]; try tauto. congruence.
  - intros Hearly.
    destruct (Index.submit f st) as [[out f'] st'] eqn:E.
    simpl in Hearly. subst out.
    destruct (submit_early _ _ _ _ E) as [-> ->].
    repeat split.
Qed.

(** C3, the claim as stated fails: the price text [Infinity] does not parse
    to a finite number, and yet the submission completes and the catalog
    grows by an entry whose price is infinite. *)
Lemma createEntry_accepts_infinite_price :
  let f := {| AddItemDialog.name := "Tea"; AddItemDialog.price := "Infinity";
              AddItemDialog.category := "Drinks";
              AddItemDialog.iconName := "cup-soda";
              AddItemDialog.selectedIcon := "🥤" |} in
  let st := Index.mount Sample.catalog Index.initial in
  JS.is_finite (JS.parseFloat (AddItemDialog.price f)) = false
  /\ fst (fst (Index.submit f st)) = AddItemDialog.Completed
  /\ map MenuItem.price (Index.menu (snd (Index.submit f st))) =
     map MenuItem.price Sample.catalog ++ [infinity].
Proof. repeat split. Qed.

(** ** Carousel: the window and its navigation *)

Lemma maxIndex_eq items category :
  MenuCarousel.maxIndex items category =
  Z.max 0
    (Z.of_nat (List.length (MenuCarousel.categoryItems items category)) - 5).
Proof. unfold MenuCarousel.maxIndex, MenuCarousel.visibleItems. lia. Qed.

Lemma maxIndex_nonneg items category :
  0 <= MenuCarousel.maxIndex items category.
Proof. unfold MenuCarousel.maxIndex. lia. Qed.

(** Navigation keeps [activeIndex] between 0 and [maxIndex]. *)
Lemma navigation_in_range items category activeIndex :
  0 <= activeIndex <= MenuCarousel.maxIndex items category ->
  0 <= MenuCarousel.goToNext items category activeIndex
       <= MenuCarousel.maxIndex items category
  /\ 0 <= MenuCarousel.goToPrevious activeIndex
          <= MenuCarousel.maxIndex items category.
Proof.
  unfold MenuCarousel.goToNext, MenuCarousel.goToPrevious. lia.
Qed.

(** C4.  For a category with [n] items the carousel shows [min 5 n] items
    and scrolls up to [max 0 (n - 5)]; next and previous move by one and are
    clamped to that range, so next at [maxIndex] and previous at 0 change
    nothing. *)
Theorem carousel_window_clamped :
  forall (items : list MenuItem.t) (category : string) (activeIndex : Z),
    let n := Z.of_nat (List.length (MenuCarousel.categoryItems items category)) in
    let maxIndex := MenuCarousel.maxIndex items category in
    MenuCarousel.visibleItems items category = Z.min 5 n
    /\ maxIndex = Z.max 0 (n - 5)
    /\ MenuCarousel.goToNext items category activeIndex =
       Z.min maxIndex (activeIndex + 1)
    /\ MenuCarousel.goToPrevious activeIndex = Z.max 0 (activeIndex - 1)
    /\ MenuCarousel.goToNext items category maxIndex = maxIndex
    /\ MenuCarousel.goToPrevious 0 = 0.
Proof.
  intros items category activeIndex n maxIndex.
  split; [reflexivity|].
  split; [apply maxIndex_eq|].
  split; [reflexivity|].
  split; [reflexivity|].
  split; [|reflexivity].
  unfold MenuCarousel.goToNext. fold maxIndex. lia.
Qed.

(** ** Order summary: total and count *)

Lemma totalPrice_snoc (items : list MenuItem.t) (item : MenuItem.t) :
  OrderSummary.totalPrice (items ++ [item]) =
  (OrderSummary.totalPrice items + MenuItem.price item)%float.
Proof. unfold OrderSummary.totalPrice. apply fold_left_app. Qed.

Lemma adds_exactly_sum (items : list MenuItem.t) :
  forall sum : float,
    Spec.adds_exactly sum items = true ->
    (JS.float_value
       (fold_left (fun sum item => (sum + MenuItem.price item)%float) items sum)
     == JS.float_value sum + Spec.exact_sum items)%Q.
Proof.
  induction items as [|item items IH]; intros sum Hexact.
  - simpl. ring.
  - cbn [Spec.adds_exactly] in Hexact.
    apply andb_true_iff in Hexact. destruct Hexact as [Hstep Hrest].
    apply andb_true_iff in Hstep. destruct Hstep as [_ Hstep].
    apply Qeq_bool_iff in Hstep.
    cbn [fold_left Spec.exact_sum fold_right].
    rewrite (IH _ Hrest), Hstep. fold (Spec.exact_sum items). ring.
Qed.

(** C5, as amended.  The total is the sum of the prices accumulated from 0
    in selection order in binary64 arithmetic: selecting one more item adds
    its price to the total with one rounded addition.  It equals the exact
    sum of the prices whenever none of these additions rounds.  The count
    is the number of selected items, and the empty selection has total 0
    and count 0. *)
Theorem order_total_and_count :
  forall (selectedItems : list MenuItem.t) (item : MenuItem.t),
    OrderSummary.totalPrice [] = zero
    /\ OrderSummary.itemCount [] = 0%nat
    /\ OrderSummary.itemCount selectedItems = List.length selectedItems
    /\ OrderSummary.totalPrice (selectedItems ++ [item]) =
       (OrderSummary.totalPrice selectedItems + MenuItem.price item)%float
    /\ (Spec.adds_exactly zero selectedItems = true ->
        (JS.float_value (OrderSummary.totalPrice selectedItems)
         == Spec.exact_sum selectedItems)%Q).
Proof.
  intros selectedItems item.
  split; [reflexivity|].
  split; [reflexivity|].
  split; [reflexivity|].
  split; [apply totalPrice_snoc|].
  intros Hexact. unfold OrderSummary.totalPrice.
  rewrite (adds_exactly_sum _ _ Hexact).
  change (JS.float_value zero) with 0%Q. ring.
Qed.

Lemma order_total_and_count_witness :
  Spec.adds_exactly zero Sample.catalog = true
  /\ (JS.float_value (OrderSummary.totalPrice Sample.catalog) == 12.75)%Q.
Proof.
  split; [reflexivity|].
  destruct (order_total_and_count Sample.catalog Sample.coffee)
    as [_ [_ [_ [_ Hexact]]]].
  rewrite (Hexact eq_refl). reflexivity.
Defined.

Set Warnings "-inexact-float".

(** C5, the claim as stated fails: with prices 0.1 and 0.2 the total is
    0.30000000000000004, which is not the exact sum of the two prices; and
    the same three items total 0.6000000000000001 selected in one order and
    0.6 in the other. *)
Lemma order_total_not_exact :
  let priced (p : float) := MenuItem.make 1 "Item" p "Drinks" "☕" "coffee" None in
  OrderSummary.totalPrice [priced 0.1%float; priced 0.2%float] = 0.30000000000000004%float
  /\ Qeq_bool
       (JS.float_value (OrderSummary.totalPrice [priced 0.1%float; priced 0.2%float]))
       (Spec.exact_sum [priced 0.1%float; priced 0.2%float]) = false
  /\ OrderSummary.totalPrice [priced 0.1%float; priced 0.2%float; priced 0.3%float]
     = 0.6000000000000001%float
  /\ OrderSummary.totalPrice [priced 0.3%float; priced 0.2%float; priced 0.1%float]
     = 0.6%float
  /\ PrimFloat.eqb 0.6000000000000001%float 0.6%float = false.
Proof. repeat split. Qed.

Set Warnings "inexact-float".

(** ** Page: which component draws a category *)

Lemma grid_has_no_navigation items category selectedItems :
  match MenuCategoryView.render items category selectedItems with
  | Some nodes => existsb is_navigation nodes = false
  | None => True
  end.
Proof.
  unfold MenuCategoryView.render.
  destruct (List.length _ =? 0)%nat; [exact I | reflexivity].
Qed.

(** C6, as amended.  On a narrow (mobile) surface every category is drawn
    by [MenuCategoryView], the grid of all its items without windowing or
    navigation; on a wide surface every category is drawn by
    [MenuCarousel], the paged view. *)
Theorem view_dispatch :
  forall (isMobile : bool) (activeIndex : string -> Z) (st : Index.State),
    Index.categoryComponent isMobile =
    (if isMobile then Index.MenuCategoryView else Index.MenuCarousel)
    /\ Index.renderCategories true activeIndex st =
       map (fun category =>
              MenuCategoryView.render (Index.menu st) category
                (Index.selectedItems st))
         (Index.categories st)
    /\ Forall (fun view =>
                 match view with
                 | Some nodes => existsb is_navigation nodes = false
                 | None => True
                 end)
         (Index.renderCategories true activeIndex st)
    /\ Index.renderCategories false activeIndex st =
       map (fun category =>
              Some (MenuCarousel.render (Index.menu st) category
                      (Index.selectedItems st) (activeIndex category)))
         (Index.categories st).
Proof.
  intros isMobile activeIndex st.
  split; [reflexivity|].
  split; [reflexivity|].
  split; [|reflexivity].
  unfold Index.renderCategories. cbn [Index.categoryComponent].
  apply Forall_map, Forall_forall. intros category _.
  apply grid_has_no_navigation.
Qed.

(** C6, the claim as stated fails: on a narrow surface the page mounts the
    grid, which draws no navigation button, and on a wide one it mounts the
    carousel, which draws them. *)
Lemma narrow_surface_uses_grid :
  let st := Index.mount Sample.catalog Index.initial in
  Index.categoryComponent true = Index.MenuCategoryView
  /\ Index.categoryComponent false = Index.MenuCarousel
  /\ nth 0 (Index.renderCategories true (fun _ => 0) st) None =
     Some [ Heading "Drinks";
            Grid [ {| card_item := Sample.coffee; card_selected := false |} ] ]
  /\ nth 0 (Index.renderCategories false (fun _ => 0) st) None =
     Some [ Heading "Drinks"; PreviousButton true; NextButton true;
            Track 0 [ {| card_item := Sample.coffee;
                         card_selected := false |} ] ].
Proof. repeat split. Qed.

(** ** Catalog: the categories *)

Lemma includes_In (xs : list string) (x : string) :
  JS.includes xs x = true <-> In x xs.
Proof.
  unfold JS.includes. rewrite existsb_exists. split.
  - intros [y [Hin Heq]]. apply String.eqb_eq in Heq. subst. exact Hin.
  - intros Hin. exists x. split; [exact Hin | apply String.eqb_refl].
Qed.

Lemma filter_not_included_app (seen : list string) (x : string)
  (ys : list string) :
  filter (fun y => negb (JS.includes (JS.Set_add seen x) y)) ys =
  filter (fun y => negb (JS.includes seen y))
    (filter (fun y => negb (String.eqb y x)) ys).
Proof.
  induction ys as [|y ys IH]; [reflexivity|].
  assert (Hy : negb (JS.includes (JS.Set_add seen x) y) =
               negb (String.eqb y x) && negb (JS.includes seen y)).
  { unfold JS.Set_add. destruct (JS.includes seen x) eqn:Ex.
    - destruct (String.eqb y x) eqn:Eyx; [|reflexivity].
      apply String.eqb_eq in Eyx. subst y. rewrite Ex. reflexivity.
    - unfold JS.includes. rewrite existsb_app. simpl.
      rewrite orb_false_r, negb_orb. apply andb_comm. }
  simpl. rewrite Hy, IH.
  destruct (String.eqb y x); simpl; [reflexivity|].
  destruct (JS.includes seen y); reflexivity.
Qed.

Lemma Set_fold_first_seen (xs : list string) :
  forall seen : list string,
    fold_left JS.Set_add xs seen =
    seen ++ filter (fun y => negb (JS.includes seen y)) (Spec.first_seen xs).
Proof.
  induction xs as [|x xs IH]; intros seen.
  - simpl. symmetry. apply app_nil_r.
  - cbn [fold_left Spec.first_seen]. rewrite IH, filter_not_included_app.
    unfold JS.Set_add. cbn [filter].
    destruct (JS.includes seen x) eqn:Ex; cbn [negb].
    + reflexivity.
    + rewrite <- app_assoc. reflexivity.
Qed.

(** [Array.from(new Set(xs))] is the distinct strings of [xs] in
    first-seen order. *)
Lemma Array_from_Set_first_seen (xs : list string) :
  JS.Array_from_Set xs = Spec.first_seen xs.
Proof.
  unfold JS.Array_from_Set. rewrite Set_fold_first_seen. simpl.
  induction (Spec.first_seen xs) as [|y ys IH]; simpl; congruence.
Qed.

Lemma first_seen_snoc (xs : list string) (x : string) :
  Spec.first_seen (xs ++ [x]) = JS.Set_add (Spec.first_seen xs) x.
Proof.
  rewrite <- !Array_from_Set_first_seen.
  unfold JS.Array_from_Set. apply fold_left_app.
Qed.

Lemma first_seen_In (xs : list string) (x : string) :
  In x (Spec.first_seen xs) <-> In x xs.
Proof.
  induction xs as [|y xs IH]; simpl; [tauto|].
  rewrite filter_In, IH, negb_true_iff, String.eqb_neq.
  destruct (String.string_dec y x); [subst; tauto|].
  split; [tauto|]. intros [H|H]; [tauto|]. right. split; congruence.
Qed.

Lemma first_seen_NoDup (xs : list string) : NoDup (Spec.first_seen xs).
Proof.
  induction xs as [|y xs IH]; simpl; constructor.
  - rewrite filter_In, negb_true_iff, String.eqb_neq. tauto.
  - apply NoDup_filter. exact IH.
Qed.

Lemma mount_categories_current menuData st :
  categories_current (Index.mount menuData st).
Proof.
  unfold categories_current. simpl. apply Array_from_Set_first_seen.
Qed.

Lemma handleAddMenuItem_categories_current newItem st :
  categories_current st ->
  categories_current (Index.handleAddMenuItem newItem st).
Proof.
  unfold categories_current. intros Hst.
  rewrite handleAddMenuItem_categories, handleAddMenuItem_menu, Hst.
  rewrite map_app. simpl. symmetry. apply first_seen_snoc.
Qed.

Lemma step_categories_current st e :
  categories_current st -> categories_current (Index.step st e).
Proof.
  intros Hst. destruct e as [item|f| |]; simpl.
  - unfold categories_current, Index.handleOrderItem.
    destruct (existsb _ _); exact Hst.
  - destruct (Index.submit f st) as [[[|] f'] st'] eqn:E; simpl.
    + destruct (submit_early _ _ _ _ E) as [_ ->]. exact Hst.
    + destruct (submit_completed _ _ _ _ E) as [_ ->].
      apply (handleAddMenuItem_categories_current _ _ Hst).
  - exact Hst.
  - exact Hst.
Qed.

Lemma step_categories_grow st e :
  exists added : list string,
    Index.categories (Index.step st e) = Index.categories st ++ added.
Proof.
  destruct e as [item|f| |]; simpl.
  - exists []. unfold Index.handleOrderItem.
    destruct (existsb _ _); simpl; symmetry; apply app_nil_r.
  - destruct (Index.submit f st) as [[[|] f'] st'] eqn:E; simpl.
    + destruct (submit_early _ _ _ _ E) as [_ ->].
      exists []. symmetry; apply app_nil_r.
    + destruct (submit_completed _ _ _ _ E) as [_ ->].
      cbn [Index.setAddItemDialogOpen Index.categories].
      rewrite handleAddMenuItem_categories. unfold JS.Set_add.
      destruct (JS.includes _ _); eexists; [symmetry; apply app_nil_r|].
      reflexivity.
  - exists []. symmetry; apply app_nil_r.
  - exists []. symmetry; apply app_nil_r.
Qed.

Lemma run_categories_current menuData events :
  categories_current (Index.run menuData events).
Proof.
  unfold Index.run.
  generalize (mount_categories_current menuData Index.initial).
  generalize (Index.mount menuData Index.initial).
  induction events as [|e events IH]; intros st Hst; simpl.
  - exact Hst.
  - apply IH. apply step_categories_current. exact Hst.
Qed.

(** C7.  After the mount effect and after any sequence of events, the
    categories are the distinct category strings of the catalog in
    first-seen order: the mount effect derives them from the menu data,
    adding an entry appends its category when it is not yet among them and
    leaves them alone otherwise, and no event removes or reorders one. *)
Theorem categories_first_seen :
  forall (menuData : list MenuItem.t) (events : list Index.Event)
         (newItem : NewItem.t) (e : Index.Event),
    let st := Index.run menuData events in
    Index.categories (Index.mount menuData Index.initial) =
    Spec.first_seen (map MenuItem.category menuData)
    /\ Index.categories st =
       Spec.first_seen (map MenuItem.category (Index.menu st))
    /\ NoDup (Index.categories st)
    /\ (forall c : string,
           In c (Index.categories st) <->
           exists item, In item (Index.menu st) /\ MenuItem.category item = c)
    /\ Index.categories (Index.handleAddMenuItem newItem st) =
       (if JS.includes (Index.categories st) (NewItem.category newItem)
        then Index.categories st
        else Index.categories st ++ [NewItem.category newItem])
    /\ Index.categories (Index.handleAddMenuItem newItem st) =
       Spec.first_seen
         (map MenuItem.category
            (Index.menu (Index.handleAddMenuItem newItem st)))
    /\ exists added : list string,
         Index.categories (Index.step st e) = Index.categories st ++ added.
Proof.
  intros menuData events newItem e st.
  pose proof (run_categories_current menuData events) as Hst.
  fold st in Hst. unfold categories_current in Hst.
  split; [apply (mount_categories_current menuData Index.initial)|].
  split; [exact Hst|].
  split; [rewrite Hst; apply first_seen_NoDup|].
  split.
  { intros c. rewrite Hst, first_seen_In, in_map_iff.
    split; intros [item [H1 H2]]; exists item; split; assumption. }
  split; [apply handleAddMenuItem_categories|].
  split; [apply (handleAddMenuItem_categories_current newItem st Hst)|].
  apply step_categories_grow.
Qed.

(** ** Category views: the empty category *)

(** C8.  For a category without items the carousel draws the heading and
    the placeholder message and no navigation button, whereas the grid
    draws nothing at all. *)
Theorem empty_category_views :
  forall (items selectedItems : list MenuItem.t) (category : string)
         (activeIndex : Z),
    List.length (MenuCarousel.categoryItems items category) = 0%nat ->
    MenuCarousel.render items category selectedItems activeIndex =
    [ Heading category; EmptyMessage "No items in this category" ]
    /\ existsb is_navigation
         (MenuCarousel.render items category selectedItems activeIndex) = false
    /\ MenuCategoryView.render items category selectedItems = None.
Proof.
  intros items selectedItems category activeIndex Hempty.
  unfold MenuCarousel.render, MenuCategoryView.render.
  change (MenuCategoryView.categoryItems items category)
    with (MenuCarousel.categoryItems items category).
  rewrite Hempty. repeat split.
Qed.

Lemma empty_category_views_witness :
  MenuCarousel.render Sample.catalog "Sides" [Sample.coffee] 0 =
  [ Heading "Sides"; EmptyMessage "No items in this category" ]
  /\ MenuCategoryView.render Sample.catalog "Sides" [Sample.coffee] = None.
Proof.
  destruct (empty_category_views Sample.catalog [Sample.coffee] "Sides" 0
              eq_refl) as [Hcarousel [_ Hgrid]].
  split; [exact Hcarousel | exact Hgrid].
Defined.

(** ** Category views: which items are shown as selected *)

(** C9.  The grid and the carousel decide "is this item selected" by the
    same function of the selection: an item is selected in either exactly
    when some selected entry has its id, so both draw the same cards for a
    category. *)
Theorem views_agree_on_selection :
  forall (selectedItems items : list MenuItem.t) (item : MenuItem.t)
         (category : string) (activeIndex : Z),
    MenuCategoryView.isItemSelected selectedItems item =
    MenuCarousel.isItemSelected selectedItems item
    /\ (MenuCategoryView.isItemSelected selectedItems item = true <->
        exists selectedItem,
          In selectedItem selectedItems
          /\ MenuItem.id selectedItem = MenuItem.id item)
    /\ (MenuCarousel.isItemSelected selectedItems item = true <->
        exists selectedItem,
          In selectedItem selectedItems
          /\ MenuItem.id selectedItem = MenuItem.id item)
    /\ forall cards : list Card,
         MenuCategoryView.render items category selectedItems =
         Some [Heading category; Grid cards] ->
         MenuCarousel.render items category selectedItems activeIndex =
         [ Heading category;
           PreviousButton (activeIndex =? 0);
           NextButton (MenuCarousel.maxIndex items category <=? activeIndex);
           Track (- (activeIndex * 88)) cards ].
Proof.
  intros selectedItems items item category activeIndex.
  assert (Hiff : MenuCarousel.isItemSelected selectedItems item = true <->
                 exists selectedItem,
                   In selectedItem selectedItems
                   /\ MenuItem.id selectedItem = MenuItem.id item).
  { unfold MenuCarousel.isItemSelected. rewrite existsb_exists.
    split; intros [s [Hin Hid]]; exists s; split; trivial;
      apply Z.eqb_eq; exact Hid. }
  split; [reflexivity|].
  split; [exact Hiff|].
  split; [exact Hiff|].
  intros cards.
  unfold MenuCategoryView.render, MenuCarousel.render.
  change (MenuCategoryView.categoryItems items category)
    with (MenuCarousel.categoryItems items category).
  destruct (List.length (MenuCarousel.categoryItems items category) =? 0)%nat;
    [discriminate|].
  intros E. injection E as <-. reflexivity.
Qed.

(** ** Page: what each handler leaves alone *)

Lemma handleOrderItem_frame item st :
  Index.menu (Index.handleOrderItem item st) = Index.menu st
  /\ Index.categories (Index.handleOrderItem item st) = Index.categories st.
Proof.
  unfold Index.handleOrderItem. destruct (existsb _ _); split; reflexivity.
Qed.

Lemma submit_selectedItems f st :
  Index.selectedItems (snd (Index.submit f st)) = Index.selectedItems st.
Proof.
  destruct (Index.submit f st) as [[[|] f'] st'] eqn:E; simpl.
  - destruct (submit_early _ _ _ _ E) as [_ ->]. reflexivity.
  - destruct (submit_completed _ _ _ _ E) as [_ ->].
    cbn [Index.setAddItemDialogOpen Index.selectedItems].
    apply handleAddMenuItem_selectedItems.
Qed.

(** C10.  Toggling an item leaves the catalog and the categories as they
    were; adding a menu item, through a submission that completes or one
    that is refused, leaves the selection as it was. *)
Theorem handlers_frame :
  forall (item : MenuItem.t) (newItem : NewItem.t) (f : AddItemDialog.Form)
         (st : Index.State),
    Index.menu (Index.handleOrderItem item st) = Index.menu st
    /\ Index.categories (Index.handleOrderItem item st) = Index.categories st
    /\ Index.selectedItems (Index.handleAddMenuItem newItem st) =
       Index.selectedItems st
    /\ Index.selectedItems (snd (Index.submit f st)) = Index.selectedItems st.
Proof.
  intros item newItem f st.
  destruct (handleOrderItem_frame item st) as [Hmenu Hcategories].
  split; [exact Hmenu|].
  split; [exact Hcategories|].
  split; [apply handleAddMenuItem_selectedItems | apply submit_selectedItems].
Qed.

Lemma createEntry_refusal_witness :
  Index.submit Sample.unnamed (Index.mount Sample.catalog Index.initial) =
  (AddItemDialog.EarlyReturn, Sample.unnamed,
   Index.mount Sample.catalog Index.initial).
Proof.
  exact (proj1 (proj2 (createEntry_refusal Sample.unnamed
                         (Index.mount Sample.catalog Index.initial))
                  eq_refl)).
Defined.

Lemma views_agree_on_selection_witness :
  MenuCategoryView.render Sample.catalog "Drinks" [Sample.espresso] =
  Some [ Heading "Drinks";
         Grid [ {| card_item := Sample.coffee; card_selected := true |} ] ]
  /\ MenuCarousel.render Sample.catalog "Drinks" [Sample.espresso] 0 =
     [ Heading "Drinks"; PreviousButton true; NextButton true;
       Track 0 [ {| card_item := Sample.coffee; card_selected := true |} ] ].
Proof.
  split; [reflexivity|].
  exact (proj2 (proj2 (proj2
           (views_agree_on_selection [Sample.espresso] Sample.catalog
              Sample.coffee "Drinks" 0)))
           [ {| card_item := Sample.coffee; card_selected := true |} ]
           eq_refl).
Defined.

(** ** The scenarios of the specification *)

(** Scenario A: selecting the only entry gives total 3 and count 1;
    selecting it again empties the order. *)
Example scenario_toggle_coffee :
  let st0 := Index.mount [Sample.coffee] Index.initial in
  let st1 := Index.handleOrderItem Sample.coffee st0 in
  let st2 := Index.handleOrderItem Sample.coffee st1 in
  Index.selectedItems st1 = [Sample.coffee]
  /\ OrderSummary.totalPrice (Index.selectedItems st1) = 3%float
  /\ OrderSummary.itemCount (Index.selectedItems st1) = 1%nat
  /\ Index.selectedItems st2 = []
  /\ OrderSummary.totalPrice (Index.selectedItems st2) = 0%float
  /\ OrderSummary.itemCount (Index.selectedItems st2) = 0%nat
  /\ map toast_message (Index.toasts st2) =
     ["Added Coffee to your order"; "Removed Coffee from your order"].
Proof. repeat split. Qed.

(** Scenario B: with ids 1, 2 and 5 in the catalog, the new entry gets id 6
    and price 2.5, and the catalog has four entries. *)
Example scenario_create_tea :
  let st := snd (Index.submit Sample.tea
                   (Index.mount Sample.catalog Index.initial)) in
  Index.menu st =
  Sample.catalog
  ++ [MenuItem.make 6 "Tea" 2.5 "Drinks" "🥤" "cup-soda" None]
  /\ List.length (Index.menu st) = 4%nat
  /\ Index.categories st = ["Drinks"; "Pastries"; "Mains"]
  /\ Index.addItemDialogOpen st = false.
Proof. repeat split. Qed.

(** Scenario C and property P4: a draft without a name, and one whose price
    is the text [abc], are refused and change nothing. *)
Example scenario_refused_drafts :
  let st := Index.mount Sample.catalog Index.initial in
  Index.submit Sample.unnamed st =
  (AddItemDialog.EarlyReturn, Sample.unnamed, st)
  /\ Index.submit Sample.unpriced st =
     (AddItemDialog.EarlyReturn, Sample.unpriced, st).
Proof. repeat split. Qed.

(** Scenario D: seven items give [maxIndex] 2, and three steps forward from
    0 stop at 2. *)
Example scenario_seven_sides :
  let next := MenuCarousel.goToNext Sample.sides "Sides" in
  MenuCarousel.visibleItems Sample.sides "Sides" = 5
  /\ MenuCarousel.maxIndex Sample.sides "Sides" = 2
  /\ next 0 = 1
  /\ next (next 0) = 2
  /\ next (next (next 0)) = 2.
Proof. repeat split. Qed.

(** [parseFloat] reads the longest numeric prefix, so a price text with
    trailing characters is accepted with the value of its prefix. *)
Example parseFloat_prefix :
  JS.parseFloat "2.5abc" = 2.5%float
  /\ JS.parseFloat "  12e1" = 120%float
  /\ JS.isNaN (JS.parseFloat "abc") = true
  /\ JS.isNaN (JS.parseFloat ".") = true
  /\ JS.parseFloat "-Infinity" = neg_infinity.
Proof. repeat split. Qed.

(** * Further properties of the components *)

(** ** Runs of the page *)

(** A property that holds after the mount effect and that every event
    preserves holds after every run. *)
Lemma run_invariant (P : Index.State -> Prop) menuData :
  P (Index.mount menuData Index.initial) ->
  (forall st e, P st -> P (Index.step st e)) ->
  forall events, P (Index.run menuData events).
Proof.
  intros Hmount Hstep events. unfold Index.run.
  revert Hmount. generalize (Index.mount menuData Index.initial).
  induction events as [|e events IH]; intros st Hst; simpl.
  - exact Hst.
  - apply IH, Hstep, Hst.
Qed.

Lemma run_snoc menuData events e :
  Index.run menuData (events ++ [e]) =
  Index.step (Index.run menuData events) e.
Proof. unfold Index.run. apply fold_left_app. Qed.

Lemma step_selectedItems st e :
  Index.selectedItems (Index.step st e) =
  match e with
  | Index.OrderItem item =>
      Index.selectedItems (Index.handleOrderItem item st)
  | _ => Index.selectedItems st
  end.
Proof.
  destruct e as [item|f| |]; simpl; try reflexivity.
  apply submit_selectedItems.
Qed.

Lemma step_menu st e :
  Index.menu (Index.step st e) =
  match e with
  | Index.Submit f =>
      if JS.falsy (AddItemDialog.name f) || JS.falsy (AddItemDialog.price f)
         || JS.falsy (AddItemDialog.category f)
         || JS.falsy (AddItemDialog.iconName f)
         || JS.isNaN (JS.parseFloat (AddItemDialog.price f))
      then Index.menu st
      else
        Index.menu st
        ++ [MenuItem.make
              (JS.number_add (JS.Math_max0 (map MenuItem.id (Index.menu st))) 1)
              (AddItemDialog.name f) (JS.parseFloat (AddItemDialog.price f))
              (AddItemDialog.category f) (AddItemDialog.selectedIcon f)
              (AddItemDialog.iconName f) None]
  | _ => Index.menu st
  end.
Proof.
  destruct e as [item|f| |]; simpl; try reflexivity.
  - apply handleOrderItem_frame.
  - pose proof (submit_outcome f st) as Hout.
    destruct (Index.submit f st) as [[out f'] st'] eqn:E. simpl in Hout.
    destruct (_ || JS.isNaN _); subst out; simpl.
    + destruct (submit_early _ _ _ _ E) as [_ ->]. reflexivity.
    + destruct (submit_completed _ _ _ _ E) as [_ ->].
      cbn [Index.setAddItemDialogOpen Index.menu].
      apply handleAddMenuItem_menu.
Qed.

(** ** Selection: ids, order and count *)

Lemma isSelected_In i (xs : list MenuItem.t) :
  Spec.isSelected i xs = true <-> In i (map MenuItem.id xs).
Proof.
  unfold Spec.isSelected. rewrite existsb_exists, in_map_iff.
  split; intros [x [H1 H2]]; exists x.
  - apply Z.eqb_eq in H2. tauto.
  - split; [tauto | apply Z.eqb_eq; tauto].
Qed.

Lemma isSelected_false_notin i (xs : list MenuItem.t) :
  Spec.isSelected i xs = false <-> ~ In i (map MenuItem.id xs).
Proof.
  rewrite <- isSelected_In. destruct (Spec.isSelected i xs); split;
    congruence.
Qed.

Lemma filter_out_absent i (xs : list MenuItem.t) :
  Spec.isSelected i xs = false ->
  filter (fun entry => negb (MenuItem.id entry =? i)) xs = xs.
Proof.
  unfold Spec.isSelected.
  induction xs as [|x xs IH]; simpl; [reflexivity|].
  intros H. apply orb_false_iff in H. destruct H as [Hx Hxs].
  rewrite Hx. simpl. f_equal. apply IH, Hxs.
Qed.

Lemma filter_out_twice i (xs : list MenuItem.t) :
  filter (fun entry => negb (MenuItem.id entry =? i))
    (filter (fun entry => negb (MenuItem.id entry =? i)) xs) =
  filter (fun entry => negb (MenuItem.id entry =? i)) xs.
Proof. apply filter_out_absent, isSelected_filter_out. Qed.

Lemma isSelected_filter_other i j (xs : list MenuItem.t) :
  j <> i ->
  Spec.isSelected j
    (filter (fun entry => negb (MenuItem.id entry =? i)) xs) =
  Spec.isSelected j xs.
Proof.
  intros Hji. unfold Spec.isSelected.
  induction xs as [|x xs IH]; simpl; [reflexivity|].
  destruct (MenuItem.id x =? i) eqn:Exi; simpl; rewrite IH; [|reflexivity].
  apply Z.eqb_eq in Exi.
  destruct (MenuItem.id x =? j) eqn:Exj; [|reflexivity].
  apply Z.eqb_eq in Exj. congruence.
Qed.

Lemma NoDup_ids_filter (p : MenuItem.t -> bool) (xs : list MenuItem.t) :
  NoDup (map MenuItem.id xs) -> NoDup (map MenuItem.id (filter p xs)).
Proof.
  induction xs as [|x xs IH]; simpl; intros Hnd; [constructor|].
  inversion Hnd as [|? ? Hnotin Hrest]; subst.
  destruct (p x); simpl; [|apply IH, Hrest].
  constructor; [|apply IH, Hrest].
  intros Hin. apply Hnotin.
  apply in_map_iff in Hin. destruct Hin as [y [Hy Hin]].
  apply filter_In in Hin. apply in_map_iff. exists y. tauto.
Qed.

Lemma handleOrderItem_NoDup item st :
  NoDup (map MenuItem.id (Index.selectedItems st)) ->
  NoDup (map MenuItem.id
           (Index.selectedItems (Index.handleOrderItem item st))).
Proof.
  intros Hnd. rewrite handleOrderItem_selectedItems.
  destruct (Spec.isSelected _ _) eqn:E.
  - apply NoDup_ids_filter, Hnd.
  - rewrite map_app. simpl.
    apply NoDup_app; [exact Hnd | repeat constructor; simpl; tauto |].
    intros i Hin [<-|[]]. apply isSelected_false_notin in E. tauto.
Qed.

Lemma run_selection_NoDup menuData events :
  NoDup (map MenuItem.id
           (Index.selectedItems (Index.run menuData events))).
Proof.
  apply (run_invariant
           (fun st => NoDup (map MenuItem.id (Index.selectedItems st)))).
  - constructor.
  - intros st e Hst. rewrite step_selectedItems.
    destruct e; try exact Hst. apply handleOrderItem_NoDup, Hst.
Qed.

Lemma length_filter_out_present i (xs : list MenuItem.t) :
  NoDup (map MenuItem.id xs) ->
  Spec.isSelected i xs = true ->
  S (List.length (filter (fun entry => negb (MenuItem.id entry =? i)) xs)) =
  List.length xs.
Proof.
  induction xs as [|x xs IH]; intros Hnd Hsel; [discriminate|].
  inversion Hnd as [|? ? Hnotin Hrest]; subst.
  change (Spec.isSelected i (x :: xs))
    with ((MenuItem.id x =? i) || Spec.isSelected i xs) in Hsel.
  cbn [filter List.length].
  destruct (MenuItem.id x =? i) eqn:Exi; cbn [negb List.length].
  - apply Z.eqb_eq in Exi. subst i.
    rewrite filter_out_absent; [reflexivity|].
    apply isSelected_false_notin, Hnotin.
  - f_equal. apply IH; [assumption | exact Hsel].
Qed.

(** X1.  The selection never holds two entries with one id: after the
    mount effect and any sequence of events the ids of the selected items
    are pairwise distinct. *)
Theorem selection_ids_distinct :
  forall (menuData : list MenuItem.t) (events : list Index.Event),
    NoDup (map MenuItem.id
             (Index.selectedItems (Index.run menuData events))).
Proof. intros menuData events. apply run_selection_NoDup. Qed.

(** X2.  Toggling an item touches only the entries with its id: the
    selected entries with any other id stay, in the same order, and the
    membership of every other id is as before. *)
Theorem toggle_leaves_other_ids :
  forall (item : MenuItem.t) (st : Index.State) (j : Z),
    j <> MenuItem.id item ->
    filter (fun entry => negb (MenuItem.id entry =? MenuItem.id item))
      (Index.selectedItems (Index.handleOrderItem item st)) =
    filter (fun entry => negb (MenuItem.id entry =? MenuItem.id item))
      (Index.selectedItems st)
    /\ Spec.isSelected j
         (Index.selectedItems (Index.handleOrderItem item st)) =
       Spec.isSelected j (Index.selectedItems st).
Proof.
  intros item st j Hj. rewrite handleOrderItem_selectedItems.
  destruct (Spec.isSelected (MenuItem.id item) _) eqn:E.
  - split; [apply filter_out_twice | apply isSelected_filter_other, Hj].
  - split.
    + rewrite filter_app. simpl. rewrite Z.eqb_refl. simpl.
      apply app_nil_r.
    + rewrite isSelected_app. unfold Spec.isSelected at 2. simpl.
      destruct (MenuItem.id item =? j) eqn:Eij.
      * apply Z.eqb_eq in Eij. congruence.
      * rewrite !orb_false_r. reflexivity.
Qed.

Lemma toggle_leaves_other_ids_witness :
  Spec.isSelected 2
    (Index.selectedItems
       (Index.handleOrderItem Sample.coffee
          (Index.handleOrderItem Sample.bagel
             (Index.mount Sample.catalog Index.initial)))) = true.
Proof.
  rewrite (proj2 (toggle_leaves_other_ids Sample.coffee
                    (Index.handleOrderItem Sample.bagel
                       (Index.mount Sample.catalog Index.initial))
                    2 ltac:(discriminate))).
  reflexivity.
Defined.

(** X3.  Selecting an item that is not in the order and then removing it
    gives back the very selection there was, entries and order. *)
Theorem toggle_twice_restores :
  forall (item : MenuItem.t) (st : Index.State),
    Spec.isSelected (MenuItem.id item) (Index.selectedItems st) = false ->
    Index.selectedItems
      (Index.handleOrderItem item (Index.handleOrderItem item st)) =
    Index.selectedItems st.
Proof.
  intros item st Hnot.
  rewrite handleOrderItem_selectedItems, handleOrderItem_flips, Hnot.
  cbn [negb]. rewrite handleOrderItem_selectedItems, Hnot.
  rewrite filter_app, (filter_out_absent _ _ Hnot). simpl.
  rewrite Z.eqb_refl. simpl. apply app_nil_r.
Qed.

Lemma toggle_twice_restores_witness :
  Index.selectedItems
    (Index.handleOrderItem Sample.coffee
       (Index.handleOrderItem Sample.coffee
          (Index.handleOrderItem Sample.bagel
             (Index.mount Sample.catalog Index.initial)))) =
  [Sample.bagel].
Proof.
  exact (toggle_twice_restores Sample.coffee
           (Index.handleOrderItem Sample.bagel
              (Index.mount Sample.catalog Index.initial))
           eq_refl).
Defined.

(** X4.  In every state the page reaches, toggling an item changes the
    count of the order by exactly one: one less when the item was selected,
    one more when it was not. *)
Theorem toggle_changes_count_by_one :
  forall (menuData : list MenuItem.t) (events : list Index.Event)
         (item : MenuItem.t),
    let st := Index.run menuData events in
    let before := OrderSummary.itemCount (Index.selectedItems st) in
    let after :=
      OrderSummary.itemCount
        (Index.selectedItems (Index.handleOrderItem item st)) in
    if Spec.isSelected (MenuItem.id item) (Index.selectedItems st)
    then S after = before
    else after = S before.
Proof.
  intros menuData events item st before after.
  unfold after, before, OrderSummary.itemCount.
  rewrite handleOrderItem_selectedItems.
  destruct (Spec.isSelected _ _) eqn:E.
  - apply length_filter_out_present; [|exact E].
    apply run_selection_NoDup.
  - rewrite length_app. simpl. lia.
Qed.

(** ** Catalog: ids and growth over a run *)

Lemma fresh_id_notin (ids : list Z) : ~ In (JS.Math_max0 ids + 1) ids.
Proof.
  intros Hin. pose proof (Math_max0_ge ids) as Hge.
  rewrite Forall_forall in Hge. specialize (Hge _ Hin). lia.
Qed.

Lemma Math_max0_app_fresh (ids : list Z) :
  JS.Math_max0 (ids ++ [JS.Math_max0 ids + 1]) = JS.Math_max0 ids + 1.
Proof.
  pose proof (Math_max0_nonneg ids) as Hnonneg.
  assert (H : forall xs m, JS.Math_max0 xs <= m -> 0 <= m ->
                           JS.Math_max0 (xs ++ [m]) = m).
  { induction xs as [|x xs IH]; simpl; intros m Hle Hm; [lia|].
    rewrite IH; lia. }
  apply H; lia.
Qed.

Lemma step_menu_grows st e :
  exists new : list MenuItem.t,
    Index.menu (Index.step st e) = Index.menu st ++ new
    /\ (List.length new <= 1)%nat
    /\ Forall (fun entry =>
                 MenuItem.id entry =
                 JS.number_add
                   (JS.Math_max0 (map MenuItem.id (Index.menu st))) 1) new.
Proof.
  assert (Hsame : forall l : list MenuItem.t,
             exists new : list MenuItem.t,
               l = l ++ new /\ (List.length new <= 1)%nat
               /\ Forall (fun entry =>
                            MenuItem.id entry =
                            JS.number_add
                              (JS.Math_max0 (map MenuItem.id (Index.menu st)))
                              1)
                    new).
  { intros l. exists nil. rewrite app_nil_r.
    split; [reflexivity|]. split; [simpl; lia | constructor]. }
  rewrite step_menu.
  destruct e as [item|f| |]; try apply Hsame.
  destruct (_ || JS.isNaN _); [apply Hsame|].
  eexists. split; [reflexivity|]. split; [simpl; lia|].
  repeat constructor.
Qed.

Lemma step_menu_NoDup st e :
  NoDup (map MenuItem.id (Index.menu st)) ->
  JS.Math_max0 (map MenuItem.id (Index.menu st)) < 2 ^ 53 ->
  NoDup (map MenuItem.id (Index.menu (Index.step st e)))
  /\ JS.Math_max0 (map MenuItem.id (Index.menu (Index.step st e)))
     <= JS.Math_max0 (map MenuItem.id (Index.menu st)) + 1.
Proof.
  intros Hnd Hmax.
  destruct (step_menu_grows st e) as [new [-> [Hlen Hids]]].
  destruct new as [|entry [|? ?]]; [| |simpl in Hlen; lia].
  - rewrite app_nil_r. split; [exact Hnd | lia].
  - inversion Hids as [|? ? Hid _]; subst.
    rewrite map_app. simpl. rewrite Hid, (fresh_id_exact _ Hmax).
    split; [|rewrite Math_max0_app_fresh; lia].
    apply NoDup_app; [exact Hnd | repeat constructor; simpl; tauto |].
    intros i Hin [<-|[]]. exact (fresh_id_notin _ Hin).
Qed.

Lemma steps_menu_NoDup events :
  forall st,
    NoDup (map MenuItem.id (Index.menu st)) ->
    JS.Math_max0 (map MenuItem.id (Index.menu st))
    + Z.of_nat (List.length events) <= 2 ^ 53 ->
    NoDup (map MenuItem.id (Index.menu (fold_left Index.step events st))).
Proof.
  induction events as [|e events IH]; intros st Hnd Hmax; [exact Hnd|].
  cbn [fold_left]. cbn [List.length] in Hmax.
  destruct (step_menu_NoDup st e Hnd) as [Hnd' Hmax']; [lia|].
  apply IH; [exact Hnd' | lia].
Qed.

Lemma run_menu_prefix menuData events :
  exists added : list MenuItem.t,
    Index.menu (Index.run menuData events) = menuData ++ added.
Proof.
  apply (run_invariant
           (fun st => exists added, Index.menu st = menuData ++ added)).
  - exists nil. simpl. symmetry. apply app_nil_r.
  - intros st e [added Hst].
    destruct (step_menu_grows st e) as [new [Hnew _]].
    exists (added ++ new). rewrite Hnew, Hst. symmetry. apply app_assoc.
Qed.

(** X5.  The catalog keeps its ids distinct as long as the ids stay within
    the integers that binary64 counts exactly: when the startup data has
    pairwise distinct ids and its greatest id plus the number of events is
    at most 2^53, the menu after these events has pairwise distinct
    ids. *)
Theorem catalog_ids_distinct :
  forall (menuData : list MenuItem.t) (events : list Index.Event),
    NoDup (map MenuItem.id menuData) ->
    JS.Math_max0 (map MenuItem.id menuData)
    + Z.of_nat (List.length events) <= 2 ^ 53 ->
    NoDup (map MenuItem.id (Index.menu (Index.run menuData events))).
Proof.
  intros menuData events Hnd Hmax.
  apply (steps_menu_NoDup events); assumption.
Qed.

Lemma catalog_ids_distinct_witness :
  NoDup (map MenuItem.id
           (Index.menu
              (Index.run Sample.catalog
                 [Index.Submit Sample.tea; Index.OrderItem Sample.coffee;
                  Index.Submit Sample.tea]))).
Proof.
  apply (catalog_ids_distinct Sample.catalog).
  - simpl. repeat constructor; simpl; intuition discriminate.
  - vm_compute. discriminate.
Defined.

(** At the edge of that range the bound cannot be dropped: from the single
    startup id 2^53 one accepted submission gives a second entry with the
    same id. *)
Example catalog_ids_repeat_at_limit :
  NoDup (map MenuItem.id [Sample.limit])
  /\ map MenuItem.id
       (Index.menu (Index.run [Sample.limit] [Index.Submit Sample.tea])) =
     [2 ^ 53; 2 ^ 53].
Proof. split; [repeat constructor; simpl; tauto | reflexivity]. Qed.

(** X6.  The catalog only grows, and at its end: after any sequence of
    events the menu starts with the startup data, unchanged and in order,
    and one more event leaves every entry in place and adds at most one
    entry behind them. *)
Theorem catalog_only_grows :
  forall (menuData : list MenuItem.t) (events : list Index.Event)
         (e : Index.Event),
    let st := Index.run menuData events in
    (exists added, Index.menu st = menuData ++ added)
    /\ exists new,
         Index.menu (Index.step st e) = Index.menu st ++ new
         /\ (List.length new <= 1)%nat.
Proof.
  intros menuData events e st. split.
  - apply run_menu_prefix.
  - destruct (step_menu_grows st e) as [new [Hnew [Hlen _]]].
    exists new. split; assumption.
Qed.

(** ** Selection and catalog together *)

Lemma handleOrderItem_selected_from item st entry :
  In entry (Index.selectedItems (Index.handleOrderItem item st)) ->
  In entry (Index.selectedItems st) \/ entry = item.
Proof.
  rewrite handleOrderItem_selectedItems.
  destruct (Spec.isSelected _ _).
  - rewrite filter_In. tauto.
  - rewrite in_app_iff. simpl. intuition auto.
Qed.

Lemma from_view_selected_in_menu events :
  forall st,
    Forall (fun entry => In entry (Index.menu st)) (Index.selectedItems st) ->
    Index.from_view st events ->
    let st' := fold_left Index.step events st in
    Forall (fun entry => In entry (Index.menu st')) (Index.selectedItems st').
Proof.
  induction events as [|e events IH]; intros st Hst Hview; [exact Hst|].
  destruct Hview as [He Hrest]. cbn [fold_left]. apply IH; [|exact Hrest].
  rewrite Forall_forall in *. intros entry Hin.
  destruct (step_menu_grows st e) as [new [-> _]].
  apply in_or_app. left.
  rewrite step_selectedItems in Hin.
  destruct e as [item|f| |]; try (apply Hst, Hin).
  destruct (handleOrderItem_selected_from _ _ _ Hin) as [Hold| ->];
    [apply Hst, Hold | exact He].
Qed.

(** X7.  As long as every ordered item is an item that the page shows, that
    is an entry of the menu at the time of the click, every selected entry
    is an entry of the catalog. *)
Theorem selection_within_catalog :
  forall (menuData : list MenuItem.t) (events : list Index.Event),
    Index.from_view (Index.mount menuData Index.initial) events ->
    let st := Index.run menuData events in
    Forall (fun entry => In entry (Index.menu st)) (Index.selectedItems st).
Proof.
  intros menuData events Hview.
  apply (from_view_selected_in_menu events); [constructor | exact Hview].
Qed.

Lemma selection_within_catalog_witness :
  Forall (fun entry =>
            In entry
              (Index.menu
                 (Index.run Sample.catalog
                    [Index.OrderItem Sample.bagel; Index.Submit Sample.tea;
                     Index.OrderItem Sample.coffee])))
    (Index.selectedItems
       (Index.run Sample.catalog
          [Index.OrderItem Sample.bagel; Index.Submit Sample.tea;
           Index.OrderItem Sample.coffee])).
Proof.
  apply (selection_within_catalog Sample.catalog
           [Index.OrderItem Sample.bagel; Index.Submit Sample.tea;
            Index.OrderItem Sample.coffee]).
  simpl. intuition auto.
Defined.

Lemma from_view_selected_ids menuData events :
  Index.from_view (Index.mount menuData Index.initial) events ->
  forall i,
    In i (map MenuItem.id (Index.selectedItems (Index.run menuData events))) ->
    In i (map MenuItem.id (Index.menu (Index.run menuData events))).
Proof.
  intros Hview i Hin.
  pose proof (from_view_selected_in_menu events _
                (Forall_nil _ : Forall _ (Index.selectedItems
                                            (Index.mount menuData Index.initial)))
                Hview) as Hsub.
  cbv zeta in Hsub. fold (Index.run menuData events) in Hsub.
  rewrite Forall_forall in Hsub.
  apply in_map_iff in Hin. destruct Hin as [entry [<- Hin]].
  apply in_map, Hsub, Hin.
Qed.

(** X8.  A newly created entry is not drawn as selected: when every
    ordered item was an item the page showed and every id in the catalog is
    below 2^53, the entry that a completed submission appends is selected
    neither in the grid nor in the carousel. *)
Theorem new_entry_not_selected :
  forall (menuData : list MenuItem.t) (events : list Index.Event)
         (f f' : AddItemDialog.Form) (st' : Index.State),
    Index.from_view (Index.mount menuData Index.initial) events ->
    Forall (fun old => MenuItem.id old < 2 ^ 53)
      (Index.menu (Index.run menuData events)) ->
    Index.submit f (Index.run menuData events) =
    (AddItemDialog.Completed, f', st') ->
    exists entry : MenuItem.t,
      Index.menu st' = Index.menu (Index.run menuData events) ++ [entry]
      /\ MenuCategoryView.isItemSelected (Index.selectedItems st') entry = false
      /\ MenuCarousel.isItemSelected (Index.selectedItems st') entry = false.
Proof.
  intros menuData events f f' st' Hview Hsafe Hsubmit.
  destruct (submit_completed _ _ _ _ Hsubmit) as [_ ->].
  cbn [Index.setAddItemDialogOpen Index.menu Index.selectedItems].
  rewrite handleAddMenuItem_menu, handleAddMenuItem_selectedItems.
  eexists. split; [reflexivity|].
  assert (Hnot : Spec.isSelected
                   (JS.number_add
                      (JS.Math_max0
                         (map MenuItem.id
                            (Index.menu (Index.run menuData events))))
                      1)
                   (Index.selectedItems (Index.run menuData events)) = false).
  { rewrite fresh_id_exact.
    - apply isSelected_false_notin. intros Hin.
      apply (from_view_selected_ids _ _ Hview) in Hin.
      exact (fresh_id_notin _ Hin).
    - apply Math_max0_lt; [reflexivity|]. rewrite Forall_map. exact Hsafe. }
  split; exact Hnot.
Qed.

Lemma new_entry_not_selected_witness :
  exists entry : MenuItem.t,
    Index.menu
      (snd (Index.submit Sample.tea
              (Index.run Sample.catalog [Index.OrderItem Sample.omelette]))) =
    Sample.catalog ++ [entry]
    /\ MenuCarousel.isItemSelected [Sample.omelette] entry = false.
Proof.
  destruct (new_entry_not_selected Sample.catalog
              [Index.OrderItem Sample.omelette] Sample.tea
              AddItemDialog.emptyForm
              (snd (Index.submit Sample.tea
                      (Index.run Sample.catalog
                         [Index.OrderItem Sample.omelette])))
              ltac:(simpl; intuition auto)
              ltac:(repeat constructor) eq_refl)
    as [entry [Hmenu [_ Hcarousel]]].
  exists entry. split; [exact Hmenu | exact Hcarousel].
Defined.

(** ** Dialog: what a submission creates *)

Lemma submit_completed_fields f st f' st' :
  Index.submit f st = (AddItemDialog.Completed, f', st') ->
  JS.falsy (AddItemDialog.name f) = false
  /\ JS.falsy (AddItemDialog.price f) = false
  /\ JS.falsy (AddItemDialog.category f) = false
  /\ JS.falsy (AddItemDialog.iconName f) = false
  /\ JS.isNaN (JS.parseFloat (AddItemDialog.price f)) = false.
Proof.
  intros Hsubmit. pose proof (submit_outcome f st) as Hout.
  rewrite Hsubmit in Hout. simpl in Hout.
  destruct (JS.falsy (AddItemDialog.name f)),
    (JS.falsy (AddItemDialog.price f)),
    (JS.falsy (AddItemDialog.category f)),
    (JS.falsy (AddItemDialog.iconName f)),
    (JS.isNaN (JS.parseFloat (AddItemDialog.price f)));
    simpl in Hout; try discriminate; repeat split.
Qed.

Lemma falsy_false (s : string) : JS.falsy s = false -> s <> "".
Proof. destruct s; simpl; congruence. Qed.

(** X9.  Every entry that the dialog creates is complete: it carries the
    name, category, icon and icon name of the form, none of name, category
    and icon name is empty, its price is [parseFloat] of the price text and
    is not [NaN], and it has no image. *)
Theorem created_entry_complete :
  forall (f f' : AddItemDialog.Form) (st st' : Index.State),
    Index.submit f st = (AddItemDialog.Completed, f', st') ->
    exists entry : MenuItem.t,
      Index.menu st' = Index.menu st ++ [entry]
      /\ MenuItem.name entry = AddItemDialog.name f
      /\ MenuItem.name entry <> ""
      /\ MenuItem.category entry = AddItemDialog.category f
      /\ MenuItem.category entry <> ""
      /\ MenuItem.icon_name entry = AddItemDialog.iconName f
      /\ MenuItem.icon_name entry <> ""
      /\ MenuItem.icon entry = AddItemDialog.selectedIcon f
      /\ MenuItem.price entry = JS.parseFloat (AddItemDialog.price f)
      /\ JS.isNaN (MenuItem.price entry) = false
      /\ MenuItem.image entry = None.
Proof.
  intros f f' st st' Hsubmit.
  destruct (submit_completed_fields _ _ _ _ Hsubmit)
    as [Hname [_ [Hcategory [Hicon Hprice]]]].
  destruct (submit_completed _ _ _ _ Hsubmit) as [_ ->].
  cbn [Index.setAddItemDialogOpen Index.menu].
  rewrite handleAddMenuItem_menu.
  eexists. split; [reflexivity|].
  cbn [NewItem.with_id MenuItem.name MenuItem.category MenuItem.icon_name
       MenuItem.icon MenuItem.price MenuItem.image NewItem.name
       NewItem.category NewItem.icon_name NewItem.icon NewItem.price
       NewItem.image].
  repeat split; auto using falsy_false.
Qed.

Lemma created_entry_complete_witness :
  exists entry : MenuItem.t,
    Index.menu (snd (Index.submit Sample.tea
                       (Index.mount Sample.catalog Index.initial))) =
    Sample.catalog ++ [entry]
    /\ MenuItem.name entry = "Tea"
    /\ MenuItem.price entry = 2.5%float.
Proof.
  destruct (created_entry_complete Sample.tea AddItemDialog.emptyForm
              (Index.mount Sample.catalog Index.initial)
              (snd (Index.submit Sample.tea
                      (Index.mount Sample.catalog Index.initial)))
              eq_refl)
    as [entry [Hmenu [Hname [_ [_ [_ [_ [_ [_ [Hprice _]]]]]]]]]].
  exists entry. split; [exact Hmenu|]. split; [exact Hname | exact Hprice].
Defined.

(** X10.  Nothing dedups drafts: submitting the same complete form again
    right after it was accepted is accepted again and appends a second
    entry with the same name, price, category and icon; when every id in
    the catalog was below 2^53 - 1, its id is the next one after the
    first's. *)
Theorem same_draft_twice :
  forall (f f1 : AddItemDialog.Form) (st st1 : Index.State),
    Index.submit f st = (AddItemDialog.Completed, f1, st1) ->
    exists (first second : MenuItem.t) (st2 : Index.State),
      Index.submit f st1 =
      (AddItemDialog.Completed, AddItemDialog.emptyForm, st2)
      /\ Index.menu st2 = Index.menu st ++ [first; second]
      /\ MenuItem.name second = MenuItem.name first
      /\ MenuItem.price second = MenuItem.price first
      /\ MenuItem.category second = MenuItem.category first
      /\ MenuItem.icon second = MenuItem.icon first
      /\ MenuItem.icon_name second = MenuItem.icon_name first
      /\ (Forall (fun old => MenuItem.id old < 2 ^ 53 - 1) (Index.menu st) ->
          MenuItem.id second = MenuItem.id first + 1).
Proof.
  intros f f1 st st1 Hfirst.
  pose proof (submit_outcome f st) as Hout. rewrite Hfirst in Hout.
  pose proof (submit_outcome f st1) as Hout1. simpl in Hout.
  rewrite <- Hout in Hout1.
  destruct (Index.submit f st1) as [[out f2] st2] eqn:Hsecond.
  simpl in Hout1. subst out.
  destruct (submit_completed _ _ _ _ Hsecond) as [-> Hst2].
  destruct (submit_completed _ _ _ _ Hfirst) as [_ Hst1].
  do 2 eexists. exists st2. split; [reflexivity|].
  rewrite Hst2. cbn [Index.setAddItemDialogOpen Index.menu].
  rewrite handleAddMenuItem_menu, Hst1.
  cbn [Index.setAddItemDialogOpen Index.menu].
  rewrite handleAddMenuItem_menu, map_app, <- app_assoc.
  cbn [map NewItem.with_id MenuItem.id].
  split; [reflexivity|].
  cbn [MenuItem.name MenuItem.price MenuItem.category MenuItem.icon
       MenuItem.icon_name MenuItem.id].
  do 5 (split; [reflexivity|]).
  intros Hsafe.
  assert (Hmax : JS.Math_max0 (map MenuItem.id (Index.menu st)) < 2 ^ 53 - 1).
  { apply Math_max0_lt; [reflexivity|]. rewrite Forall_map. exact Hsafe. }
  pose proof (Math_max0_nonneg (map MenuItem.id (Index.menu st))) as Hnonneg.
  assert (Hfirst_id :
            JS.number_add (JS.Math_max0 (map MenuItem.id (Index.menu st))) 1 =
            JS.Math_max0 (map MenuItem.id (Index.menu st)) + 1).
  { apply fresh_id_exact. lia. }
  rewrite Hfirst_id, Math_max0_app_fresh.
  transitivity (JS.Math_max0 (map MenuItem.id (Index.menu st)) + 1 + 1);
    [apply number_add_exact; lia | reflexivity].
Qed.

Lemma same_draft_twice_witness :
  exists first second : MenuItem.t,
    Index.menu
      (Index.run Sample.catalog
         [Index.Submit Sample.tea; Index.Submit Sample.tea]) =
    Sample.catalog ++ [first; second]
    /\ MenuItem.id second = MenuItem.id first + 1.
Proof.
  destruct (same_draft_twice Sample.tea AddItemDialog.emptyForm
              (Index.mount Sample.catalog Index.initial)
              (Index.run Sample.catalog [Index.Submit Sample.tea])
              eq_refl)
    as [first [second [st2 [Hsubmit [Hmenu [_ [_ [_ [_ [_ Hid]]]]]]]]]].
  exists first, second. split.
  - transitivity (Index.menu st2); [|exact Hmenu].
    change (Index.run Sample.catalog
              [Index.Submit Sample.tea; Index.Submit Sample.tea])
      with (snd (Index.submit Sample.tea
                   (Index.run Sample.catalog [Index.Submit Sample.tea]))).
    rewrite Hsubmit. reflexivity.
  - apply Hid. repeat constructor.
Defined.

(** ** Dialog: the Save button, the reset and the icon *)

Lemma saveDisabled_refused f st :
  AddItemDialog.saveDisabled f = true ->
  Index.submit f st = (AddItemDialog.EarlyReturn, f, st).
Proof.
  unfold AddItemDialog.saveDisabled, Index.submit, AddItemDialog.handleSubmit.
  intros ->. reflexivity.
Qed.

(** X11.  The Save button is disabled exactly when one of the four fields
    is empty, and then a submission would be refused anyway; with the
    button enabled, a submission is refused exactly when the price text
    does not parse to a number. *)
Theorem save_button_and_validation :
  forall (f : AddItemDialog.Form) (st : Index.State),
    (AddItemDialog.saveDisabled f = true <->
     AddItemDialog.name f = "" \/ AddItemDialog.price f = ""
     \/ AddItemDialog.category f = "" \/ AddItemDialog.iconName f = "")
    /\ (AddItemDialog.saveDisabled f = true ->
        Index.submit f st = (AddItemDialog.EarlyReturn, f, st))
    /\ (AddItemDialog.saveDisabled f = false ->
        (fst (fst (Index.submit f st)) = AddItemDialog.EarlyReturn <->
         JS.isNaN (JS.parseFloat (AddItemDialog.price f)) = true)).
Proof.
  intros f st.
  split; [apply required_fields_missing|].
  split; [apply saveDisabled_refused|].
  intros Henabled. rewrite submit_outcome.
  unfold AddItemDialog.saveDisabled in Henabled. rewrite Henabled.
  simpl. destruct (JS.isNaN _); split; congruence.
Qed.

Lemma save_button_and_validation_witness :
  AddItemDialog.saveDisabled Sample.unpriced = false
  /\ fst (fst (Index.submit Sample.unpriced
                 (Index.mount Sample.catalog Index.initial))) =
     AddItemDialog.EarlyReturn.
Proof.
  split; [reflexivity|].
  apply (proj2 (proj2 (save_button_and_validation Sample.unpriced
                         (Index.mount Sample.catalog Index.initial)))
           eq_refl).
  reflexivity.
Defined.

(** X12.  A completed submission closes the dialog and clears the form,
    which leaves the Save button disabled: submitting the cleared form is
    refused and changes nothing, so one accepted draft gives one entry. *)
Theorem completed_submission_resets :
  forall (f f' : AddItemDialog.Form) (st st' : Index.State),
    Index.submit f st = (AddItemDialog.Completed, f', st') ->
    Index.addItemDialogOpen st' = false
    /\ f' = AddItemDialog.emptyForm
    /\ AddItemDialog.saveDisabled f' = true
    /\ Index.submit f' st' = (AddItemDialog.EarlyReturn, f', st').
Proof.
  intros f f' st st' Hsubmit.
  destruct (submit_completed _ _ _ _ Hsubmit) as [-> ->].
  split; [reflexivity|]. split; [reflexivity|]. split; [reflexivity|].
  apply saveDisabled_refused. reflexivity.
Qed.

Lemma completed_submission_resets_witness :
  Index.addItemDialogOpen
    (Index.run Sample.catalog [Index.OpenAddItem; Index.Submit Sample.tea]) =
  false.
Proof.
  exact (proj1 (completed_submission_resets Sample.tea AddItemDialog.emptyForm
                  (Index.run Sample.catalog [Index.OpenAddItem])
                  (Index.run Sample.catalog
                     [Index.OpenAddItem; Index.Submit Sample.tea])
                  eq_refl)).
Defined.

Lemma find_icon_none (name' : string) :
  (forall emoji, ~ In (emoji, name') AddItemDialog.iconOptions) ->
  find (fun option => String.eqb (snd option) name')
    AddItemDialog.iconOptions = None.
Proof.
  intros Hnone.
  destruct (find _ AddItemDialog.iconOptions) as [[emoji name0]|] eqn:E;
    [|reflexivity].
  apply find_some in E. destruct E as [Hin Heq].
  simpl in Heq. apply String.eqb_eq in Heq. subst name0.
  destruct (Hnone emoji Hin).
Qed.

(** X13.  Choosing an icon records its name and touches no other text
    field; when the name is in the icon table the glyph becomes the emoji
    the table gives for it, and when it is not the glyph stays the one
    chosen before. *)
Theorem icon_select :
  forall (name' : string) (f : AddItemDialog.Form),
    let f' := AddItemDialog.handleIconSelect name' f in
    AddItemDialog.iconName f' = name'
    /\ AddItemDialog.name f' = AddItemDialog.name f
    /\ AddItemDialog.price f' = AddItemDialog.price f
    /\ AddItemDialog.category f' = AddItemDialog.category f
    /\ (forall emoji,
           In (emoji, name') AddItemDialog.iconOptions ->
           AddItemDialog.selectedIcon f' = emoji)
    /\ ((forall emoji, ~ In (emoji, name') AddItemDialog.iconOptions) ->
        AddItemDialog.selectedIcon f' = AddItemDialog.selectedIcon f).
Proof.
  intros name' f f'. unfold f', AddItemDialog.handleIconSelect.
  repeat split; try (destruct (find _ _); reflexivity).
  - intros emoji Hin. simpl in Hin.
    repeat (destruct Hin as [Hin|Hin];
            [injection Hin as <- <-; reflexivity|]).
    destruct Hin.
  - intros Hnone. rewrite (find_icon_none _ Hnone). reflexivity.
Qed.

Lemma icon_select_witness :
  AddItemDialog.selectedIcon
    (AddItemDialog.handleIconSelect "cookie" AddItemDialog.emptyForm) = "🍪"
  /\ AddItemDialog.selectedIcon
       (AddItemDialog.handleIconSelect "bacon" Sample.tea) = "🥤".
Proof.
  split.
  - apply (proj1 (proj2 (proj2 (proj2 (proj2
             (icon_select "cookie" AddItemDialog.emptyForm)))))).
    simpl. tauto.
  - apply (proj2 (proj2 (proj2 (proj2 (proj2
             (icon_select "bacon" Sample.tea)))))).
    intros emoji Hin. simpl in Hin.
    repeat (destruct Hin as [Hin|Hin]; [discriminate Hin|]).
    destruct Hin.
Defined.

(** ** Carousel: sequences of navigation *)

Lemma handler_in_range items category nav activeIndex :
  0 <= activeIndex <= MenuCarousel.maxIndex items category ->
  0 <= MenuCarousel.handler items category nav activeIndex
    <= MenuCarousel.maxIndex items category.
Proof.
  intros Hrange. destruct nav; simpl;
    unfold MenuCarousel.goToNext, MenuCarousel.goToPrevious; lia.
Qed.

Lemma disabled_iff_noop items category nav activeIndex :
  0 <= activeIndex <= MenuCarousel.maxIndex items category ->
  (MenuCarousel.disabled items category activeIndex nav = true <->
   MenuCarousel.handler items category nav activeIndex = activeIndex).
Proof.
  intros Hrange. destruct nav; simpl;
    unfold MenuCarousel.goToNext, MenuCarousel.goToPrevious.
  - rewrite Z.eqb_eq. lia.
  - rewrite Z.leb_le. lia.
Qed.

Lemma click_is_handler items category nav activeIndex :
  0 <= activeIndex <= MenuCarousel.maxIndex items category ->
  MenuCarousel.click items category activeIndex nav =
  MenuCarousel.handler items category nav activeIndex.
Proof.
  intros Hrange. unfold MenuCarousel.click.
  destruct (MenuCarousel.disabled _ _ _ _) eqn:E; [|reflexivity].
  symmetry. apply disabled_iff_noop; assumption.
Qed.

Lemma clicks_in_range items category navs :
  forall activeIndex,
    0 <= activeIndex <= MenuCarousel.maxIndex items category ->
    0 <= fold_left (MenuCarousel.click items category) navs activeIndex
      <= MenuCarousel.maxIndex items category.
Proof.
  induction navs as [|nav navs IH]; intros a Hrange; [exact Hrange|].
  cbn [fold_left]. apply IH.
  rewrite click_is_handler by exact Hrange.
  apply handler_in_range, Hrange.
Qed.

(** X14.  The carousel never scrolls out of its range: from the initial
    index 0, after any sequence of clicks on the two buttons the index lies
    between 0 and [maxIndex]. *)
Theorem carousel_index_stays_in_range :
  forall (items : list MenuItem.t) (category : string)
         (navs : list MenuCarousel.Nav),
    0 <= fold_left (MenuCarousel.click items category) navs 0
      <= MenuCarousel.maxIndex items category.
Proof.
  intros items category navs. apply clicks_in_range.
  pose proof (maxIndex_nonneg items category). lia.
Qed.

(** X15.  For an index in range, a navigation button is drawn disabled
    exactly when its handler would leave the index as it is: previous at 0
    and next at [maxIndex]; so a click on a button does what its handler
    does, enabled or not. *)
Theorem disabled_buttons_are_noops :
  forall (items selectedItems : list MenuItem.t) (category : string)
         (activeIndex : Z) (nav : MenuCarousel.Nav),
    0 <= activeIndex <= MenuCarousel.maxIndex items category ->
    MenuCarousel.categoryItems items category <> [] ->
    MenuCarousel.render items category selectedItems activeIndex =
    [ Heading category;
      PreviousButton
        (MenuCarousel.disabled items category activeIndex MenuCarousel.Previous);
      NextButton
        (MenuCarousel.disabled items category activeIndex MenuCarousel.Next);
      Track (- (activeIndex * 88))
        (MenuCarousel.cards
           (MenuCarousel.render items category selectedItems activeIndex)) ]
    /\ (MenuCarousel.disabled items category activeIndex nav = true <->
        MenuCarousel.handler items category nav activeIndex = activeIndex)
    /\ MenuCarousel.click items category activeIndex nav =
       MenuCarousel.handler items category nav activeIndex.
Proof.
  intros items selectedItems category activeIndex nav Hrange Hitems.
  split; [|split; [apply disabled_iff_noop | apply click_is_handler];
           exact Hrange].
  unfold MenuCarousel.render.
  destruct (MenuCarousel.categoryItems items category) as [|item rest] eqn:E;
    [congruence|].
  cbn [List.length Nat.eqb MenuCarousel.cards flat_map MenuCarousel.disabled].
  rewrite app_nil_r. reflexivity.
Qed.

Lemma disabled_buttons_are_noops_witness :
  MenuCarousel.disabled Sample.sides "Sides" 2 MenuCarousel.Next = true
  /\ MenuCarousel.handler Sample.sides "Sides" MenuCarousel.Next 2 = 2.
Proof.
  assert (Hrange : 0 <= 2 <= MenuCarousel.maxIndex Sample.sides "Sides")
    by (vm_compute; split; discriminate).
  assert (Hitems : MenuCarousel.categoryItems Sample.sides "Sides" <> [])
    by discriminate.
  split; [reflexivity|].
  apply (proj1 (proj2 (disabled_buttons_are_noops Sample.sides [] "Sides" 2
                         MenuCarousel.Next Hrange Hitems))).
  reflexivity.
Defined.

(** X16.  Stepping forward [k] times from the start reaches index
    [min k maxIndex], and stepping back [k] times from an index [a] that is
    not negative reaches [max 0 (a - k)]. *)
Theorem carousel_repeated_steps :
  forall (items : list MenuItem.t) (category : string) (k : nat) (a : Z),
    Nat.iter k (MenuCarousel.goToNext items category) 0 =
    Z.min (Z.of_nat k) (MenuCarousel.maxIndex items category)
    /\ (0 <= a ->
        Nat.iter k MenuCarousel.goToPrevious a = Z.max 0 (a - Z.of_nat k)).
Proof.
  intros items category k a.
  pose proof (maxIndex_nonneg items category) as Hmax.
  split.
  - induction k as [|k IH]; [simpl; lia|].
    rewrite Nat.iter_succ, IH. unfold MenuCarousel.goToNext. lia.
  - intros Ha. induction k as [|k IH]; [simpl; lia|].
    rewrite Nat.iter_succ, IH. unfold MenuCarousel.goToPrevious. lia.
Qed.

Lemma carousel_repeated_steps_witness :
  Nat.iter 4 MenuCarousel.goToPrevious 3 = 0.
Proof.
  exact (proj2 (carousel_repeated_steps Sample.sides "Sides" 4 3)
           ltac:(discriminate)).
Defined.

(** X17.  Inside the range a step forward undoes a step back and a step
    back undoes a step forward: previous after next returns to any index
    below [maxIndex], and next after previous returns to any index above 0
    and not above [maxIndex]. *)
Theorem carousel_steps_undo :
  forall (items : list MenuItem.t) (category : string) (a : Z),
    (0 <= a < MenuCarousel.maxIndex items category ->
     MenuCarousel.goToPrevious (MenuCarousel.goToNext items category a) = a)
    /\ (0 < a <= MenuCarousel.maxIndex items category ->
        MenuCarousel.goToNext items category (MenuCarousel.goToPrevious a) = a).
Proof.
  intros items category a.
  unfold MenuCarousel.goToNext, MenuCarousel.goToPrevious.
  split; intros Hrange; lia.
Qed.

Lemma carousel_steps_undo_witness :
  MenuCarousel.goToPrevious (MenuCarousel.goToNext Sample.sides "Sides" 1) = 1.
Proof.
  exact (proj1 (carousel_steps_undo Sample.sides "Sides" 1)
           ltac:(vm_compute; split; [discriminate | reflexivity])).
Defined.

Lemma categoryItems_app items new category :
  MenuCarousel.categoryItems (items ++ new) category =
  MenuCarousel.categoryItems items category
  ++ MenuCarousel.categoryItems new category.
Proof. apply filter_app. Qed.

(** X18.  Events on the page never put a carousel out of range: one more
    event can only raise the [maxIndex] of a category, so an index that was
    in range before the event is in range after it. *)
Theorem catalog_growth_keeps_index_valid :
  forall (st : Index.State) (e : Index.Event) (category : string)
         (activeIndex : Z),
    MenuCarousel.maxIndex (Index.menu st) category
    <= MenuCarousel.maxIndex (Index.menu (Index.step st e)) category
    /\ (0 <= activeIndex <= MenuCarousel.maxIndex (Index.menu st) category ->
        0 <= activeIndex
          <= MenuCarousel.maxIndex (Index.menu (Index.step st e)) category).
Proof.
  intros st e category activeIndex.
  assert (Hle : MenuCarousel.maxIndex (Index.menu st) category
                <= MenuCarousel.maxIndex (Index.menu (Index.step st e)) category).
  { destruct (step_menu_grows st e) as [new [-> _]].
    rewrite !maxIndex_eq, categoryItems_app, length_app. lia. }
  split; [exact Hle | lia].
Qed.

Lemma catalog_growth_keeps_index_valid_witness :
  0 <= 2 <= MenuCarousel.maxIndex
              (Index.menu
                 (Index.step (Index.mount Sample.sides Index.initial)
                    (Index.Submit Sample.tea)))
              "Sides".
Proof.
  apply (proj2 (catalog_growth_keeps_index_valid
                  (Index.mount Sample.sides Index.initial)
                  (Index.Submit Sample.tea) "Sides" 2)).
  vm_compute. split; discriminate.
Defined.

(** ** Category views over the page state *)

Lemma grid_items items category selectedItems :
  map card_item
    (MenuCategoryView.cards
       (MenuCategoryView.render items category selectedItems)) =
  MenuCategoryView.categoryItems items category.
Proof.
  unfold MenuCategoryView.render.
  destruct (List.length (MenuCategoryView.categoryItems items category) =? 0)%nat
    eqn:E.
  - apply Nat.eqb_eq, length_zero_iff_nil in E. rewrite E. reflexivity.
  - unfold MenuCategoryView.cards. simpl. rewrite app_nil_r, map_map. simpl.
    apply map_id.
Qed.

Lemma carousel_items items category selectedItems activeIndex :
  map card_item
    (MenuCarousel.cards
       (MenuCarousel.render items category selectedItems activeIndex)) =
  MenuCarousel.categoryItems items category.
Proof.
  unfold MenuCarousel.render.
  destruct (List.length (MenuCarousel.categoryItems items category) =? 0)%nat
    eqn:E.
  - apply Nat.eqb_eq, length_zero_iff_nil in E. rewrite E. reflexivity.
  - unfold MenuCarousel.cards. simpl. rewrite app_nil_r, map_map. simpl.
    apply map_id.
Qed.

(** The items of [categories], category by category, are those items whose
    category is among them. *)
Lemma by_category_permutation (items : list MenuItem.t) :
  forall categories : list string,
    NoDup categories ->
    Permutation
      (flat_map (MenuCarousel.categoryItems items) categories)
      (filter (fun item => JS.includes categories (MenuItem.category item))
         items).
Proof.
  induction categories as [|c categories IH]; intros Hnd.
  - simpl. induction items as [|x items IHx]; simpl; auto.
  - inversion Hnd as [|? ? Hnotin Hrest]; subst.
    cbn [flat_map].
    rewrite (IH Hrest). clear IH.
    induction items as [|x items IHx]; [constructor|].
    unfold MenuCarousel.categoryItems in *. cbn [filter].
    change (JS.includes (c :: categories) (MenuItem.category x))
      with (String.eqb (MenuItem.category x) c
            || JS.includes categories (MenuItem.category x)).
    destruct (String.eqb (MenuItem.category x) c) eqn:Ec.
    + apply String.eqb_eq in Ec.
      destruct (JS.includes categories (MenuItem.category x)) eqn:Ein.
      * apply includes_In in Ein. congruence.
      * simpl. apply perm_skip, IHx.
    + destruct (JS.includes categories (MenuItem.category x)); simpl.
      * apply Permutation_sym, Permutation_cons_app, Permutation_sym, IHx.
      * exact IHx.
Qed.

Lemma filter_all (A : Type) (p : A -> bool) (xs : list A) :
  (forall x, In x xs -> p x = true) -> filter p xs = xs.
Proof.
  induction xs as [|x xs IH]; simpl; intros H; [reflexivity|].
  rewrite (H x (or_introl eq_refl)). f_equal. apply IH. auto.
Qed.

Lemma current_categories_partition st :
  categories_current st ->
  Permutation
    (flat_map (MenuCarousel.categoryItems (Index.menu st))
       (Index.categories st))
    (Index.menu st).
Proof.
  intros Hst. rewrite by_category_permutation.
  - rewrite filter_all; [reflexivity|].
    intros x Hx. apply includes_In. rewrite Hst.
    apply first_seen_In, in_map, Hx.
  - rewrite Hst. apply first_seen_NoDup.
Qed.

Lemma current_categories_nonempty st category :
  categories_current st ->
  In category (Index.categories st) ->
  MenuCarousel.categoryItems (Index.menu st) category <> [].
Proof.
  intros Hst Hin Hempty. rewrite Hst in Hin.
  apply first_seen_In, in_map_iff in Hin.
  destruct Hin as [item [Hcategory Hin]].
  assert (Hitem : In item (MenuCarousel.categoryItems (Index.menu st) category)).
  { apply filter_In. split; [exact Hin|]. apply String.eqb_eq, Hcategory. }
  rewrite Hempty in Hitem. destruct Hitem.
Qed.

Lemma grid_sections_items items selectedItems (categories : list string) :
  map card_item
    (flat_map MenuCategoryView.cards
       (map (fun category =>
               MenuCategoryView.render items category selectedItems)
          categories)) =
  flat_map (MenuCarousel.categoryItems items) categories.
Proof.
  induction categories as [|c categories IH]; [reflexivity|].
  cbn [map flat_map]. rewrite map_app, IH, grid_items. reflexivity.
Qed.

Lemma carousel_sections_items items selectedItems (activeIndex : string -> Z)
  (categories : list string) :
  map card_item
    (flat_map (fun view =>
                 match view with
                 | Some nodes => MenuCarousel.cards nodes
                 | None => []
                 end)
       (map (fun category =>
               Some (MenuCarousel.render items category selectedItems
                       (activeIndex category)))
          categories)) =
  flat_map (MenuCarousel.categoryItems items) categories.
Proof.
  induction categories as [|c categories IH]; [reflexivity|].
  cbn [map flat_map]. rewrite map_app, IH, carousel_items. reflexivity.
Qed.

(** X19.  In every state the page reaches, every entry of the menu is drawn
    exactly once, whichever component draws the categories: the items of
    the cards of all sections together are the menu, up to order. *)
Theorem every_entry_drawn_once :
  forall (menuData : list MenuItem.t) (events : list Index.Event)
         (activeIndex : string -> Z),
    let st := Index.run menuData events in
    Permutation
      (map card_item
         (flat_map MenuCategoryView.cards
            (Index.renderCategories true activeIndex st)))
      (Index.menu st)
    /\ Permutation
         (map card_item
            (flat_map (fun view =>
                         match view with
                         | Some nodes => MenuCarousel.cards nodes
                         | None => []
                         end)
               (Index.renderCategories false activeIndex st)))
         (Index.menu st).
Proof.
  intros menuData events activeIndex st.
  pose proof (current_categories_partition st
                (run_categories_current menuData events)) as Hperm.
  unfold Index.renderCategories. cbn [Index.categoryComponent].
  split; (etransitivity; [|exact Hperm]); apply Permutation_refl'.
  - apply grid_sections_items.
  - apply carousel_sections_items.
Qed.

(** X20.  The page never shows an empty category: in every state it
    reaches, each of its categories has at least one item, so the grid of a
    category is never suppressed and its carousel always has its
    navigation buttons, never the placeholder. *)
Theorem no_empty_category_on_page :
  forall (menuData : list MenuItem.t) (events : list Index.Event)
         (activeIndex : string -> Z),
    let st := Index.run menuData events in
    Forall (fun category =>
              MenuCarousel.categoryItems (Index.menu st) category <> [])
      (Index.categories st)
    /\ Forall (fun view => view <> None)
         (Index.renderCategories true activeIndex st)
    /\ Forall (fun view =>
                 exists nodes,
                   view = Some nodes /\ existsb is_navigation nodes = true)
         (Index.renderCategories false activeIndex st).
Proof.
  intros menuData events activeIndex st.
  assert (Hnonempty :
            forall category,
              In category (Index.categories st) ->
              MenuCarousel.categoryItems (Index.menu st) category <> []).
  { intros category. apply current_categories_nonempty.
    apply run_categories_current. }
  unfold Index.renderCategories. cbn [Index.categoryComponent].
  split; [apply Forall_forall; exact Hnonempty|].
  split; apply Forall_map, Forall_forall; intros category Hin;
    specialize (Hnonempty category Hin).
  - unfold MenuCategoryView.render.
    change (MenuCategoryView.categoryItems (Index.menu st) category)
      with (MenuCarousel.categoryItems (Index.menu st) category).
    destruct (MenuCarousel.categoryItems (Index.menu st) category);
      [congruence | discriminate].
  - eexists. split; [reflexivity|]. unfold MenuCarousel.render.
    destruct (MenuCarousel.categoryItems (Index.menu st) category);
      [congruence | reflexivity].
Qed.

(** ** Notifications *)

Lemma handleOrderItem_toasts item st :
  Index.toasts (Index.handleOrderItem item st) =
  Index.toasts st
  ++ [ {| toast_kind := Plain;
          toast_message :=
            if Spec.isSelected (MenuItem.id item) (Index.selectedItems st)
            then ("Removed " ++ MenuItem.name item ++ " from your order")%string
            else ("Added " ++ MenuItem.name item ++ " to your order")%string |} ].
Proof.
  unfold Index.handleOrderItem, Spec.isSelected.
  destruct (existsb _ (Index.selectedItems st)); reflexivity.
Qed.

Lemma handleAddMenuItem_toasts newItem st :
  Index.toasts (Index.handleAddMenuItem newItem st) =
  Index.toasts st
  ++ [ {| toast_kind := Success;
          toast_message :=
            ("Added " ++ NewItem.name newItem ++ " to the menu")%string |} ].
Proof.
  unfold Index.handleAddMenuItem.
  destruct (negb (JS.includes _ _)); reflexivity.
Qed.

(** X21.  Every toggle sends exactly one plain notification that names the
    item, and its wording tells what happened: it says "Added" exactly when
    the item's id is selected after the toggle, and "Removed" otherwise. *)
Theorem toggle_notification :
  forall (item : MenuItem.t) (st : Index.State),
    let st' := Index.handleOrderItem item st in
    Index.toasts st' =
    Index.toasts st
    ++ [ {| toast_kind := Plain;
            toast_message :=
              if Spec.isSelected (MenuItem.id item) (Index.selectedItems st')
              then ("Added " ++ MenuItem.name item ++ " to your order")%string
              else ("Removed " ++ MenuItem.name item
                    ++ " from your order")%string |} ].
Proof.
  intros item st st'. unfold st'.
  rewrite handleOrderItem_toasts, handleOrderItem_flips.
  destruct (Spec.isSelected _ _); reflexivity.
Qed.

Lemma step_toasts_count st e :
  (List.length (Index.toasts (Index.step st e))
   + List.length (Index.menu st))%nat =
  (List.length (Index.toasts st)
   + List.length (Index.menu (Index.step st e))
   + List.length (Index.orders [e]))%nat.
Proof.
  destruct e as [item|f| |]; cbn [Index.orders filter List.length];
    try (simpl; lia).
  - cbn [Index.step]. rewrite handleOrderItem_toasts, length_app.
    rewrite (proj1 (handleOrderItem_frame item st)). simpl. lia.
  - cbn [Index.step].
    destruct (Index.submit f st) as [[[|] f'] st'] eqn:E; simpl.
    + destruct (submit_early _ _ _ _ E) as [_ ->]. lia.
    + destruct (submit_completed _ _ _ _ E) as [_ ->].
      cbn [Index.setAddItemDialogOpen Index.toasts Index.menu].
      rewrite handleAddMenuItem_toasts, handleAddMenuItem_menu, !length_app.
      simpl. lia.
Qed.

(** X22.  Notifications are sent for toggles and for created entries and
    for nothing else: after any sequence of events their number is the
    number of toggles plus the number of entries the catalog has gained; a
    refused submission, opening and cancelling send none. *)
Theorem notifications_counted :
  forall (menuData : list MenuItem.t) (events : list Index.Event),
    let st := Index.run menuData events in
    (List.length (Index.toasts st) + List.length menuData)%nat =
    (List.length (Index.orders events) + List.length (Index.menu st))%nat.
Proof.
  intros menuData events.
  induction events as [|e events IH] using rev_ind; [reflexivity|].
  cbv zeta in *. rewrite run_snoc.
  pose proof (step_toasts_count (Index.run menuData events) e) as Hstep.
  unfold Index.orders in *. rewrite filter_app, length_app. lia.
Qed.

(** ** Cards after an event *)

Lemma grid_cards items category selectedItems :
  MenuCategoryView.cards
    (MenuCategoryView.render items category selectedItems) =
  map (fun item =>
         {| card_item := item;
            card_selected :=
              MenuCategoryView.isItemSelected selectedItems item |})
    (MenuCategoryView.categoryItems items category).
Proof.
  unfold MenuCategoryView.render.
  destruct (List.length (MenuCategoryView.categoryItems items category) =? 0)%nat
    eqn:E.
  - apply Nat.eqb_eq, length_zero_iff_nil in E. rewrite E. reflexivity.
  - unfold MenuCategoryView.cards. simpl. apply app_nil_r.
Qed.

Lemma carousel_cards items category selectedItems activeIndex :
  MenuCarousel.cards
    (MenuCarousel.render items category selectedItems activeIndex) =
  map (fun item =>
         {| card_item := item;
            card_selected := MenuCarousel.isItemSelected selectedItems item |})
    (MenuCarousel.categoryItems items category).
Proof.
  unfold MenuCarousel.render.
  destruct (List.length (MenuCarousel.categoryItems items category) =? 0)%nat
    eqn:E.
  - apply Nat.eqb_eq, length_zero_iff_nil in E. rewrite E. reflexivity.
  - unfold MenuCarousel.cards. simpl. apply app_nil_r.
Qed.

Lemma handleOrderItem_isSelected item st j :
  Spec.isSelected j (Index.selectedItems (Index.handleOrderItem item st)) =
  if j =? MenuItem.id item
  then negb (Spec.isSelected j (Index.selectedItems st))
  else Spec.isSelected j (Index.selectedItems st).
Proof.
  destruct (j =? MenuItem.id item) eqn:Ej.
  - apply Z.eqb_eq in Ej. subst j. apply handleOrderItem_flips.
  - apply Z.eqb_neq in Ej. rewrite handleOrderItem_selectedItems.
    destruct (Spec.isSelected (MenuItem.id item) _).
    + apply isSelected_filter_other, Ej.
    + rewrite isSelected_app. unfold Spec.isSelected at 2. simpl.
      destruct (MenuItem.id item =? j) eqn:Eij.
      * apply Z.eqb_eq in Eij. congruence.
      * rewrite !orb_false_r. reflexivity.
Qed.

(** X23.  A click on a card flips the check mark of the cards whose item has
    the clicked item's id and of no other card: in the grid and in the
    carousel of every category the cards after the click are the cards
    before it, same items in the same order, with exactly those marks
    inverted. *)
Theorem click_flips_cards_of_that_id :
  forall (item : MenuItem.t) (st : Index.State) (category : string)
         (activeIndex : Z),
    let st' := Index.handleOrderItem item st in
    MenuCategoryView.cards
      (MenuCategoryView.render (Index.menu st') category
         (Index.selectedItems st')) =
    map (after_click item)
      (MenuCategoryView.cards
         (MenuCategoryView.render (Index.menu st) category
            (Index.selectedItems st)))
    /\ MenuCarousel.cards
         (MenuCarousel.render (Index.menu st') category
            (Index.selectedItems st') activeIndex) =
       map (after_click item)
         (MenuCarousel.cards
            (MenuCarousel.render (Index.menu st) category
               (Index.selectedItems st) activeIndex)).
Proof.
  intros item st category activeIndex st'.
  assert (Hcards :
            map (fun entry =>
                   {| card_item := entry;
                      card_selected :=
                        Spec.isSelected (MenuItem.id entry)
                          (Index.selectedItems st') |})
              (MenuCarousel.categoryItems (Index.menu st') category) =
            map (after_click item)
              (map (fun entry =>
                      {| card_item := entry;
                         card_selected :=
                           Spec.isSelected (MenuItem.id entry)
                             (Index.selectedItems st) |})
                 (MenuCarousel.categoryItems (Index.menu st) category))).
  { unfold st'. rewrite (proj1 (handleOrderItem_frame item st)), map_map.
    apply map_ext. intros entry. unfold after_click. simpl.
    rewrite handleOrderItem_isSelected. reflexivity. }
  rewrite !grid_cards, !carousel_cards. split; exact Hcards.
Qed.

Lemma categoryItems_single entry category :
  MenuCarousel.categoryItems [entry] category =
  if String.eqb (MenuItem.category entry) category then [entry] else [].
Proof.
  unfold MenuCarousel.categoryItems. simpl.
  destruct (String.eqb _ _); reflexivity.
Qed.

(** X24.  A created entry shows up as the last card of its own category
    and nowhere else: after a completed submission the cards of a category
    are the cards before it, unchanged, followed by the card of the new
    entry when the category is the one of the form. *)
Theorem created_entry_card :
  forall (f f' : AddItemDialog.Form) (st st' : Index.State)
         (category : string) (activeIndex : Z),
    Index.submit f st = (AddItemDialog.Completed, f', st') ->
    exists entry : MenuItem.t,
      Index.menu st' = Index.menu st ++ [entry]
      /\ MenuCarousel.cards
           (MenuCarousel.render (Index.menu st') category
              (Index.selectedItems st') activeIndex) =
         MenuCarousel.cards
           (MenuCarousel.render (Index.menu st) category
              (Index.selectedItems st) activeIndex)
         ++ (if String.eqb (AddItemDialog.category f) category
             then [ {| card_item := entry;
                       card_selected :=
                         MenuCarousel.isItemSelected (Index.selectedItems st)
                           entry |} ]
             else [])
      /\ MenuCategoryView.cards
           (MenuCategoryView.render (Index.menu st') category
              (Index.selectedItems st')) =
         MenuCategoryView.cards
           (MenuCategoryView.render (Index.menu st) category
              (Index.selectedItems st))
         ++ (if String.eqb (AddItemDialog.category f) category
             then [ {| card_item := entry;
                       card_selected :=
                         MenuCategoryView.isItemSelected
                           (Index.selectedItems st) entry |} ]
             else []).
Proof.
  intros f f' st st' category activeIndex Hsubmit.
  destruct (submit_completed _ _ _ _ Hsubmit) as [_ ->].
  cbn [Index.setAddItemDialogOpen Index.menu Index.selectedItems].
  rewrite handleAddMenuItem_menu, handleAddMenuItem_selectedItems.
  eexists. split; [reflexivity|].
  rewrite !grid_cards, !carousel_cards.
  change MenuCategoryView.categoryItems with MenuCarousel.categoryItems.
  rewrite categoryItems_app, !map_app, categoryItems_single.
  cbn [NewItem.with_id MenuItem.category NewItem.category].
  destruct (String.eqb (AddItemDialog.category f) category);
    split; reflexivity.
Qed.

Lemma created_entry_card_witness :
  exists entry : MenuItem.t,
    map card_item
      (MenuCarousel.cards
         (MenuCarousel.render
            (Index.menu (snd (Index.submit Sample.tea
                                (Index.mount Sample.catalog Index.initial))))
            "Drinks" [] 0)) =
    [Sample.coffee; entry].
Proof.
  destruct (created_entry_card Sample.tea AddItemDialog.emptyForm
              (Index.mount Sample.catalog Index.initial)
              (snd (Index.submit Sample.tea
                      (Index.mount Sample.catalog Index.initial)))
              "Drinks" 0 eq_refl)
    as [entry [_ [Hcarousel _]]].
  exists entry.
  change (@nil MenuItem.t)
    with (Index.selectedItems
            (snd (Index.submit Sample.tea
                    (Index.mount Sample.catalog Index.initial)))) at 1.
  rewrite Hcarousel. reflexivity.
Defined.
